(** * FRITZ!Box device tracker: the scanner entity and the scan loop

    A shallow embedding of [homeassistant/components/fritz/common.py]:
    the per-device record [FritzScannerEntity] with its [update] method,
    and [FritzBoxTools.scan_devices], which folds the host list of the
    router into the registry [_devices] and sends the two dispatcher
    signals. *)

From stdpp Require Import gmap strings list fin_maps sorting.
From Stdlib Require Import ZArith Ascii String Sorted.

Local Open Scope string_scope.
Local Open Scope Z_scope.

(** ** Python values used by the component *)

Module Py.

(** Truth value of an object that is a [str] or [None]:
    [None] and the empty string are false. *)
Definition truthy (v : option string) : bool :=
  match v with
  | Some s => negb (String.eqb s "")
  | None => false
  end.

(** [a or b]. *)
Definition or (a b : option string) : option string :=
  if truthy a then a else b.

(** [s.replace(old, new)] for one-character [old] and [new]. *)
Fixpoint replace (old new : ascii) (s : string) : string :=
  match s with
  | EmptyString => EmptyString
  | String c rest =>
      String (if Ascii.eqb c old then new else c) (replace old new rest)
  end.

(** The exceptions the scan can raise. *)
Inductive exn : Type :=
| TypeError
| KeyError (key : string).

Inductive result (A : Type) : Type :=
| Return (a : A)
| Raise (e : exn).

Arguments Return {A} a.
Arguments Raise {A} e.

End Py.

(** ** const.py *)

Definition DOMAIN : string := "fritz".

(** ** [Device = namedtuple("Device", ["mac", "ip", "name"])] *)

Record Device : Type := mkDevice {
  mac : string;
  ip : option string;
  name : option string
}.

(** ** [class FritzScannerEntity] *)

Module FritzScannerEntity.

(** The attributes of an instance.  [_icon] is not assigned by
    [__init__]; [None] stands for the attribute not being set yet.
    Times are [datetime] values, taken here as integers (an instant on
    the UTC time line). *)
Record t : Type := mk {
  _mac : string;
  _name : option string;
  _ip_address : option string;
  _last_activity : option Z;
  _connected : bool;
  _icon : option string
}.

(** [__init__(self, mac, name=None)] *)
Definition __init__ (mac : string) (name : option string) : t :=
  {| _mac := mac;
     _name := name;
     _ip_address := None;
     _last_activity := None;
     _connected := false;
     _icon := None |}.

(** [update(self, dev_info, dev_home)]; [utc_point_in_time] is the
    value [dt_util.utcnow()] returns in this call. *)
Definition update (self : t) (dev_info : Device) (dev_home : bool)
    (utc_point_in_time : Z) : t :=
  let name' :=
    if negb (Py.truthy (_name self))
    then Py.or (name dev_info) (Some (Py.replace ":" "_" (_mac self)))
    else _name self in
  let connected' := dev_home in
  if negb connected'
  then {| _mac := _mac self;
          _name := name';
          _ip_address := None;
          _last_activity := _last_activity self;
          _connected := connected';
          _icon := Some "mdi:lan-disconnect" |}
  else {| _mac := _mac self;
          _name := name';
          _ip_address := ip dev_info;
          _last_activity := Some utc_point_in_time;
          _connected := connected';
          _icon := Some "mdi:lan-connect" |}.

End FritzScannerEntity.

Import FritzScannerEntity (_mac, _name, _ip_address, _last_activity,
  _connected, _icon, update).

(** One call of [update] as data: the [Device] tuple, the [dev_home]
    flag and the clock reading of the call. *)
Definition observation : Type := Device * bool * Z.

Definition apply_obs (d : FritzScannerEntity.t) (o : observation)
  : FritzScannerEntity.t :=
  update d o.1.1 o.1.2 o.2.

(** A sequence of [update] calls on one entity, oldest first. *)
Definition apply_all (d : FritzScannerEntity.t) (os : list observation)
  : FritzScannerEntity.t :=
  fold_left apply_obs os d.

(** ** One entry of [FritzHosts.get_hosts_info()]

    A dict with the keys ["mac"], ["name"], ["ip"] and ["status"].  Each
    field below is the entry of one key: [None] when the key is missing
    from the dict, [Some v] when it is there with value [v].  The values
    have the types the router client gives them: a [str] or [None] for
    the first three, a [bool] for the status. *)

Record known_host : Type := mkHost {
  kh_mac : option (option string);
  kh_name : option (option string);
  kh_ip : option (option string);
  kh_status : option bool
}.

(** ** [class FritzBoxTools] and what a scan touches outside of it *)

Module FritzBoxTools.

(** The attributes the scan reads and writes. *)
Record t : Type := mk {
  success : bool;
  _devices : gmap string FritzScannerEntity.t
}.

Definition signal_device_new : string := DOMAIN +:+ "-device-new".
Definition signal_device_update : string := DOMAIN +:+ "-device-update".

End FritzBoxTools.

Import FritzBoxTools (success, _devices, signal_device_new,
  signal_device_update).

(** The state a scan runs in: the tools object, the signals sent
    through the dispatcher so far (oldest first), and the clock: [utcnow
    k] is what the [k]-th call of [dt_util.utcnow()] returns, and
    [utcnow_calls] counts the calls made. *)
Record World : Type := mkWorld {
  self : FritzBoxTools.t;
  dispatched : list string;
  utcnow : nat -> Z;
  utcnow_calls : nat
}.

(** Statements run in a world and either return or raise; what they
    changed before raising stays changed. *)
Definition M (A : Type) : Type := World -> Py.result A * World.

Definition ret {A} (a : A) : M A := fun w => (Py.Return a, w).

Definition raise {A} (e : Py.exn) : M A := fun w => (Py.Raise e, w).

Definition bind {A B} (m : M A) (k : A -> M B) : M B :=
  fun w =>
    match m w with
    | (Py.Return a, w') => k a w'
    | (Py.Raise e, w') => (Py.Raise e, w')
    end.

Declare Scope py_scope.
Delimit Scope py_scope with py.
Notation "x <- m ;; k" := (bind m (fun x => k))
  (at level 100, m at next level, right associativity) : py_scope.
Notation "m ;;; k" := (bind m (fun _ => k))
  (at level 100, right associativity) : py_scope.
Local Open Scope py_scope.

(** [d.get(key)] and [d[key]] on the entry of one key. *)
Definition dict_get {A} (entry : option (option A)) : option A :=
  match entry with
  | Some v => v
  | None => None
  end.

Definition getitem {A} (key : string) (entry : option A) : M A :=
  match entry with
  | Some v => ret v
  | None => raise (Py.KeyError key)
  end.

(** [dt_util.utcnow()] *)
Definition dt_utcnow : M Z :=
  fun w =>
    (Py.Return (utcnow w (utcnow_calls w)),
     mkWorld (self w) (dispatched w) (utcnow w) (S (utcnow_calls w))).

(** [async_dispatcher_send(self.hass, signal)] *)
Definition async_dispatcher_send (signal : string) : M unit :=
  fun w =>
    (Py.Return tt,
     mkWorld (self w) (dispatched w ++ [signal]) (utcnow w) (utcnow_calls w)).

(** Reading and replacing [self._devices]. *)
Definition get_devices : M (gmap string FritzScannerEntity.t) :=
  fun w => (Py.Return (_devices (self w)), w).

Definition set_devices (ds : gmap string FritzScannerEntity.t) : M unit :=
  fun w =>
    (Py.Return tt,
     mkWorld (FritzBoxTools.mk (success (self w)) ds)
       (dispatched w) (utcnow w) (utcnow_calls w)).

(** [FritzScannerEntity.update], with its reading of the clock. *)
Definition entity_update (device : FritzScannerEntity.t) (dev_info : Device)
    (dev_home : bool) : M FritzScannerEntity.t :=
  utc_point_in_time <- dt_utcnow ;;
  ret (update device dev_info dev_home utc_point_in_time).

(** [_update_info(self)]; [hosts] is what
    [self.fritzhosts.get_hosts_info()] returns when it is called. *)
Definition _update_info (hosts : list known_host)
  : M (option (list known_host)) :=
  fun w =>
    if negb (success (self w)) then (Py.Return None, w)
    else (Py.Return (Some hosts), w).

(** [for ... in v]: iterating over [None] raises [TypeError]. *)
Definition iter {A} (v : option (list A)) : M (list A) :=
  match v with
  | Some l => ret l
  | None => raise Py.TypeError
  end.

(** The body of the loop of [scan_devices] for one [known_host];
    [new_device] is the flag before, the result the flag after.
    [known_host["mac"]] is read after [known_host.get("mac")] was found
    true, so it is that same string. *)
Definition scan_host (known_host : known_host) (new_device : bool) : M bool :=
  match dict_get (kh_mac known_host) with
  | Some dev_mac =>
      if negb (Py.truthy (Some dev_mac)) then ret new_device
      else
        dev_name <- getitem "name" (kh_name known_host) ;;
        dev_ip <- getitem "ip" (kh_ip known_host) ;;
        dev_home <- getitem "status" (kh_status known_host) ;;
        let dev_info := mkDevice dev_mac dev_ip dev_name in
        devices <- get_devices ;;
        match devices !! dev_mac with
        | Some device =>
            device' <- entity_update device dev_info dev_home ;;
            set_devices (<[dev_mac := device']> devices) ;;;
            ret new_device
        | None =>
            let device := FritzScannerEntity.__init__ dev_mac None in
            device' <- entity_update device dev_info dev_home ;;
            set_devices (<[dev_mac := device']> devices) ;;;
            ret true
        end
  | None => ret new_device
  end.

Fixpoint scan_loop (hosts : list known_host) (new_device : bool) : M bool :=
  match hosts with
  | [] => ret new_device
  | known_host :: rest =>
      new_device' <- scan_host known_host new_device ;;
      scan_loop rest new_device'
  end.

(** [scan_devices(self, now=None)] *)
Definition scan_devices (hosts : list known_host) : M unit :=
  info <- _update_info hosts ;;
  known_hosts <- iter info ;;
  new_device <- scan_loop known_hosts false ;;
  async_dispatcher_send signal_device_update ;;;
  if new_device then async_dispatcher_send signal_device_new else ret tt.

(** The world after a scan, whether it returned or raised. *)
Definition after_scan (w : World) (hosts : list known_host) : World :=
  (scan_devices hosts w).2.

(** The periodic timer: one scan per tick, each with the host list the
    router gives at that tick. *)
Definition scans (w : World) (ticks : list (list known_host)) : World :=
  fold_left after_scan ticks w.

(** The MAC under which the scan files an entry: [None] for the entries
    it skips. *)
Definition host_mac (h : known_host) : option string :=
  match dict_get (kh_mac h) with
  | Some m => if Py.truthy (Some m) then Some m else None
  | None => None
  end.

(** An entry the loop can read: when it has a MAC to file it under, the
    keys ["name"], ["ip"] and ["status"] are there (the router client
    builds its entries with all four keys). *)
Definition readable (h : known_host) : Prop :=
  is_Some (host_mac h) ->
  is_Some (kh_name h) /\ is_Some (kh_ip h) /\ is_Some (kh_status h).

(** What filing one observation under [m] does to the world: the entity
    found under [m], or else a new one, is updated at the next clock
    reading and stored under [m]. *)
Definition file_observation (m : string) (dev_info : Device)
    (dev_home : bool) (w : World) : World :=
  let device :=
    default (FritzScannerEntity.__init__ m None) (_devices (self w) !! m) in
  mkWorld
    (FritzBoxTools.mk (success (self w))
       (<[m := update device dev_info dev_home (utcnow w (utcnow_calls w))]>
          (_devices (self w))))
    (dispatched w) (utcnow w) (S (utcnow_calls w)).

(** The [update] call an entry makes on the entity of [m], if any. *)
Definition host_update (m : string) (h : known_host)
  : option (Device * bool) :=
  match host_mac h, kh_name h, kh_ip h, kh_status h with
  | Some m', Some dev_name, Some dev_ip, Some dev_home =>
      if decide (m' = m) then Some (mkDevice m' dev_ip dev_name, dev_home)
      else None
  | _, _, _, _ => None
  end.

(** Some entry of the list has a MAC that the registry of [w] does
    not know. *)
Definition discovers (w : World) (hosts : list known_host) : Prop :=
  exists h m, h ∈ hosts /\ host_mac h = Some m
              /\ _devices (self w) !! m = None.

(** [FritzBoxTools.__init__] from the end of its [try] block on.
    [connected] tells how the block ended: [true] when it ran through
    ([success = True]), [false] when one of the three [except] clauses
    set [success = False].  Then [_devices] is made empty and the first
    scan runs; the timer is only set when that scan returns. *)
Definition FritzBoxTools_init (connected : bool) (hosts : list known_host)
  : M unit :=
  fun w =>
    scan_devices hosts
      (mkWorld (FritzBoxTools.mk connected ∅)
         (dispatched w) (utcnow w) (utcnow_calls w)).

(** The MACs under which a host list files its entries. *)
Definition host_macs (hosts : list known_host) : gset string :=
  list_to_set (omap host_mac hosts).

(** The time of the last online observation of a list, if there is
    one. *)
Definition last_online (os : list observation) : option Z :=
  snd <$> last (filter (fun o : observation => o.1.2 = true) os).

(** What the scan keeps true of an entity [d] filed under [m]. *)
Record registered (m : string) (d : FritzScannerEntity.t) : Prop := {
  registered_mac : _mac d = m;
  registered_key : m <> "";
  registered_name : Py.truthy (_name d) = true;
  registered_icon :
    _icon d = Some (if _connected d then "mdi:lan-connect"
                    else "mdi:lan-disconnect");
  registered_ip : _connected d = false -> _ip_address d = None
}.

Definition registry_ok (devices : gmap string FritzScannerEntity.t) : Prop :=
  forall m d, devices !! m = Some d -> registered m d.

(** The key whose subscript raises on an entry: the first of ["name"],
    ["ip"] and ["status"] that is missing. *)
Definition missing_key (h : known_host) : option string :=
  match kh_name h, kh_ip h, kh_status h with
  | None, _, _ => Some "name"
  | Some _, None, _ => Some "ip"
  | Some _, Some _, None => Some "status"
  | Some _, Some _, Some _ => None
  end.

(** ** device_tracker.py *)

Definition DEFAULT_DEVICE_NAME : string := "Unknown device".

Module FritzBoxTracker.

(** The exceptions of the tracker: an attribute that was never
    assigned, a key that is not in the registry. *)
Inductive exn : Type :=
| AttributeError (attr : string)
| KeyError (key : string).

(** The attributes of an instance; [_router] is the tools object, whose
    registry the methods below take as an argument.  The values of
    [_attrs] are a [str] or [None]. *)
Record t : Type := mk {
  _mac : string;
  _name : option string;
  _active : bool;
  _attrs : gmap string (option string);
  _icon : string
}.

(** [__init__(self, router, device)]: reading [device.icon] raises when
    [update] never ran on the device. *)
Definition __init__ (device : FritzScannerEntity.t) : exn + t :=
  match FritzScannerEntity._icon device with
  | None => inl (AttributeError "_icon")
  | Some icon =>
      inr {| _mac := FritzScannerEntity._mac device;
             _name := Py.or (FritzScannerEntity._name device)
                        (Some DEFAULT_DEVICE_NAME);
             _active := false;
             _attrs := ∅;
             _icon := icon |}
  end.

(** [async_update_state(self)]; [isoformat] stands for
    [datetime.isoformat(timespec="seconds")].  A [datetime] is always
    true, so [if device.last_activity] asks whether it is set. *)
Definition async_update_state (isoformat : Z -> string)
    (devices : gmap string FritzScannerEntity.t) (self : t) : exn + t :=
  match devices !! _mac self with
  | None => inl (KeyError (_mac self))
  | Some device =>
      let attrs : gmap string (option string) :=
        <["ip_address" := FritzScannerEntity._ip_address device]>
          (<["mac" := Some (FritzScannerEntity._mac device)]> ∅) in
      let attrs' :=
        match FritzScannerEntity._last_activity device with
        | Some t => <["last_time_reachable" := Some (isoformat t)]> attrs
        | None => attrs
        end in
      inr {| _mac := _mac self;
             _name := _name self;
             _active := FritzScannerEntity._connected device;
             _attrs := attrs';
             _icon := _icon self |}
  end.

End FritzBoxTracker.

(** The loop of [add_entities] over [router.devices.items()]; the set
    [tracked] is changed in place, so what was added to it before an
    exception stays added. *)
Fixpoint add_entities_loop (items : list (string * FritzScannerEntity.t))
    (tracked : gset string) (new_tracked : list FritzBoxTracker.t)
  : (FritzBoxTracker.exn + list FritzBoxTracker.t) * gset string :=
  match items with
  | [] => (inr new_tracked, tracked)
  | (mac, device) :: rest =>
      if decide (mac ∈ tracked) then add_entities_loop rest tracked new_tracked
      else
        match FritzBoxTracker.__init__ device with
        | inl e => (inl e, tracked)
        | inr tracker =>
            add_entities_loop rest ({[mac]} ∪ tracked)
              (new_tracked ++ [tracker])
        end
  end.

(** [add_entities(router, async_add_entities, tracked)].  The result
    is [inr (Some l)] when [async_add_entities] was called with [l],
    [inr None] when it was not called, together with the set [tracked]
    after the call.  The registry is walked in the order of
    [map_to_list], not in the order of insertion of the dict. *)
Definition add_entities (devices : gmap string FritzScannerEntity.t)
    (tracked : gset string)
  : (FritzBoxTracker.exn + option (list FritzBoxTracker.t)) * gset string :=
  match add_entities_loop (map_to_list devices) tracked [] with
  | (inl e, tracked') => (inl e, tracked')
  | (inr [], tracked') => (inr None, tracked')
  | (inr new_tracked, tracked') => (inr (Some new_tracked), tracked')
  end.

(** The tracker [FritzBoxTracker(router, device)] of a device whose
    icon is [icon]. *)
Definition tracker_of (device : FritzScannerEntity.t) (icon : string)
  : FritzBoxTracker.t :=
  FritzBoxTracker.mk (_mac device)
    (Py.or (_name device) (Some DEFAULT_DEVICE_NAME)) false ∅ icon.

(** [async_setup_entry]: the set [tracked] it makes, shared by all
    runs of its callback [update_router], and the trackers handed to
    [async_add_entities] so far, oldest first. *)
Record Setup : Type := mkSetup {
  tracked : gset string;
  added : list FritzBoxTracker.t
}.

(** [update_router()], run once by [async_setup_entry] and then at
    each new-device signal; [devices] is [router.devices] at that time.
    The first component is the exception the run ends with, if any. *)
Definition update_router (devices : gmap string FritzScannerEntity.t)
    (s : Setup) : option FritzBoxTracker.exn * Setup :=
  match add_entities devices (tracked s) with
  | (inl e, tracked') => (Some e, mkSetup tracked' (added s))
  | (inr None, tracked') => (None, mkSetup tracked' (added s))
  | (inr (Some new_tracked), tracked') =>
      (None, mkSetup tracked' (added s ++ new_tracked))
  end.

(** The set-up followed by one run of the callback per registry of
    [later]. *)
Definition update_router_runs
    (later : list (gmap string FritzScannerEntity.t)) (s : Setup) : Setup :=
  fold_left (fun s devices => (update_router devices s).2) later s.

(** What each run of [update_router_runs] ends with, in order: [None]
    for a run that returns, the exception for a run that raises. *)
Fixpoint update_router_outcomes
    (later : list (gmap string FritzScannerEntity.t)) (s : Setup)
  : list (option FritzBoxTracker.exn) :=
  match later with
  | [] => []
  | devices :: rest =>
      (update_router devices s).1
      :: update_router_outcomes rest (update_router devices s).2
  end.

Definition async_setup_entry (devices : gmap string FritzScannerEntity.t)
  : option FritzBoxTracker.exn * Setup :=
  update_router devices (mkSetup ∅ []).

(** What is true of a tracker made from the registry entry of its
    MAC. *)
Definition tracker_from (devices : gmap string FritzScannerEntity.t)
    (t : FritzBoxTracker.t) : Prop :=
  exists d, devices !! FritzBoxTracker._mac t = Some d
            /\ FritzBoxTracker._name t = _name d
            /\ _icon d = Some (FritzBoxTracker._icon t)
            /\ FritzBoxTracker._active t = false
            /\ FritzBoxTracker._attrs t = ∅.

(** ** The device info of the router, in common.py *)

(** [s.startswith(p)] *)
Fixpoint starts_with (p s : string) : bool :=
  match p, s with
  | EmptyString, _ => true
  | String a p', String b s' => Ascii.eqb a b && starts_with p' s'
  | String _ _, EmptyString => false
  end.

(** [s.replace(old, new)] for a non-empty [old]: the occurrences of
    [old] are found from the left and do not overlap.  [skip] counts the
    characters of an occurrence that are still to be passed over. *)
Fixpoint replace_from (old new : string) (skip : nat) (s : string) : string :=
  match s with
  | EmptyString => EmptyString
  | String c rest =>
      match skip with
      | S k => replace_from old new k rest
      | O =>
          if starts_with old s
          then new +:+ replace_from old new (String.length old - 1) rest
          else String c (replace_from old new 0 rest)
      end
  end.

Definition str_replace (old new s : string) : string :=
  replace_from old new 0 s.

(** [old] occurs in [s]. *)
Definition occurs (old s : string) : Prop :=
  exists pre suf, s = pre +:+ old +:+ suf.

(** [old in s], by trying every position. *)
Fixpoint occursb (old s : string) : bool :=
  starts_with old s
  || match s with
     | EmptyString => false
     | String _ rest => occursb old rest
     end.

(** The dict [_fetch_device_info] returns. *)
Record device_info : Type := mkDeviceInfo {
  di_identifiers : gset (string * string);
  di_name : option string;
  di_manufacturer : string;
  di_model : option string;
  di_sw_version : option string
}.

(** [_fetch_device_info(self)]; [info] is the dict the router answers
    to [GetInfo] with, [unique_id] is [self.unique_id]. *)
Definition _fetch_device_info (unique_id : string) (info : gmap string string)
  : device_info :=
  {| di_identifiers := {[ (DOMAIN, unique_id) ]};
     di_name := info !! "NewModelName";
     di_manufacturer := "AVM";
     di_model := info !! "NewModelName";
     di_sw_version := info !! "NewSoftwareVersion" |}.

Inductive attribute_error : Type :=
| AttributeError (attr : string).

(** The property [fritzbox_model]: [None] has no [replace]. *)
Definition fritzbox_model (_device_info : device_info)
  : attribute_error + string :=
  match di_model _device_info with
  | None => inl (AttributeError "replace")
  | Some model => inr (str_replace "FRITZ!Box " "" model)
  end.

(** ** [ensure_unique_hosts] *)

Module Hosts.

(** What the validation can end with: [entry[CONF_HOST]] on an entry
    without host, a name [socket.gethostbyname] cannot resolve, and the
    error of [vol.Unique] with its message. *)
Inductive exn : Type :=
| KeyError (key : string)
| gaierror (host : string)
| Invalid (msg : string).

Section Entries.

(** The entries are the dicts of the configuration; [conf_host entry]
    is the value of [entry[CONF_HOST]], [None] when the key is missing.
    [gethostbyname] gives the address of a name, [None] when the name
    does not resolve. *)
Context {Entry : Type} (conf_host : Entry -> option string)
  (gethostbyname : string -> option string).

(** The entry has a host and the host resolves to the address. *)
Definition resolves (entry : Entry) (address : string) : Prop :=
  exists host, conf_host entry = Some host
               /\ gethostbyname host = Some address.

(** [[socket.gethostbyname(entry[CONF_HOST]) for entry in value]] *)
Fixpoint resolve_all (value : list Entry) : exn + list string :=
  match value with
  | [] => inr []
  | entry :: rest =>
      match conf_host entry with
      | None => inl (KeyError "host")
      | Some host =>
          match gethostbyname host with
          | None => inl (gaierror host)
          | Some address =>
              match resolve_all rest with
              | inl e => inl e
              | inr addresses => inr (address :: addresses)
              end
          end
      end
  end.

(** [vol.Schema(vol.Unique(msg))(v)]: [v] must have no duplicates. *)
Definition unique (msg : string) (v : list string) : exn + list string :=
  if decide (NoDup v) then inr v else inl (Invalid msg).

Definition ensure_unique_hosts (value : list Entry) : exn + list Entry :=
  match resolve_all value with
  | inl e => inl e
  | inr addresses =>
      match unique "duplicate host entries found" addresses with
      | inl e => inl e
      | inr _ => inr value
      end
  end.

End Entries.

End Hosts.

(** * Properties *)

(** ** The scanner entity *)

Section Entity.

Implicit Types (d : FritzScannerEntity.t) (dev_info : Device)
  (dev_home : bool) (o : observation) (os : list observation).

Lemma truthy_Some s : Py.truthy (Some s) = true <-> s <> "".
Proof.
  simpl. destruct (String.eqb_spec s ""); simpl; split; congruence.
Qed.

Lemma truthy_false v : Py.truthy v = false <-> v = None \/ v = Some "".
Proof.
  destruct v as [s|]; simpl.
  - destruct (String.eqb_spec s ""); simpl; split; intros H;
      try discriminate; subst; auto.
    destruct H as [H|H]; congruence.
  - split; auto.
Qed.

Lemma update_mac d dev_info dev_home now :
  _mac (update d dev_info dev_home now) = _mac d.
Proof. unfold update. by destruct dev_home. Qed.

Lemma update_name d dev_info dev_home now :
  _name (update d dev_info dev_home now)
  = if Py.truthy (_name d) then _name d
    else Py.or (name dev_info) (Some (Py.replace ":" "_" (_mac d))).
Proof. unfold update. by destruct dev_home, (Py.truthy (_name d)). Qed.

Lemma update_last_activity d dev_info dev_home now :
  _last_activity (update d dev_info dev_home now)
  = if dev_home then Some now else _last_activity d.
Proof. unfold update. by destruct dev_home. Qed.

Lemma update_connected d dev_info dev_home now :
  _connected (update d dev_info dev_home now) = dev_home.
Proof. unfold update. by destruct dev_home. Qed.

Lemma update_ip_address d dev_info dev_home now :
  _ip_address (update d dev_info dev_home now)
  = if dev_home then ip dev_info else None.
Proof. unfold update. by destruct dev_home. Qed.

Lemma apply_all_app d os1 os2 :
  apply_all d (os1 ++ os2) = apply_all (apply_all d os1) os2.
Proof. unfold apply_all. by rewrite fold_left_app. Qed.

Lemma apply_all_mac d os : _mac (apply_all d os) = _mac d.
Proof.
  revert d. induction os as [|o os IH]; intros d; [done|].
  simpl. rewrite IH. apply update_mac.
Qed.

(** C5.  Once an entity has a non-empty name, no later [update]
    changes it, whatever names the later observations carry (another
    name, the empty name, no name). *)
Theorem name_immutable_once_set d s os :
  _name d = Some s -> s <> "" -> _name (apply_all d os) = Some s.
Proof.
  intros Hname Hs. revert d Hname.
  induction os as [|o os IH]; intros d Hname; [done|].
  simpl. apply IH. unfold apply_obs. rewrite update_name, Hname.
  by apply truthy_Some in Hs as ->.
Qed.

Lemma name_immutable_once_set_witness :
  _name (apply_all
           (FritzScannerEntity.mk "AA:BB" (Some "Phone") None None false None)
           [(mkDevice "AA:BB" (Some "10.0.0.5") (Some "Tablet"), true, 3);
            (mkDevice "AA:BB" None (Some ""), false, 4);
            (mkDevice "AA:BB" None None, true, 5)])
  = Some "Phone".
Proof. apply name_immutable_once_set; [reflexivity | discriminate]. Defined.

(** C6.  What one [update] does: an unnamed entity takes the observed
    name when that is non-empty and else its MAC with the colons
    replaced; an offline observation clears connectivity and address,
    sets the disconnected icon and keeps the last activity; an online
    one sets connectivity, the observed address, the time of the call
    and the connected icon. *)
Theorem update_effect d dev_info dev_home now :
  let d' := update d dev_info dev_home now in
  (_name d = None \/ _name d = Some "" ->
     (forall s, name dev_info = Some s -> s <> "" -> _name d' = Some s)
     /\ (name dev_info = None \/ name dev_info = Some "" ->
         _name d' = Some (Py.replace ":" "_" (_mac d))))
  /\ (dev_home = false ->
      _connected d' = false /\ _ip_address d' = None
      /\ _icon d' = Some "mdi:lan-disconnect"
      /\ _last_activity d' = _last_activity d)
  /\ (dev_home = true ->
      _connected d' = true /\ _ip_address d' = ip dev_info
      /\ _last_activity d' = Some now
      /\ _icon d' = Some "mdi:lan-connect").
Proof.
  intros d'. subst d'. split; [|split].
  - intros Hun. apply truthy_false in Hun.
    rewrite update_name, Hun. unfold Py.or. split.
    + intros s Hs Hne. rewrite Hs.
      by apply truthy_Some in Hne as ->.
    + intros Hobs. by apply truthy_false in Hobs as ->.
  - intros ->. by unfold update.
  - intros ->. by unfold update.
Qed.

Lemma update_effect_witness :
  let d := FritzScannerEntity.__init__ "AA:BB" None in
  let offline := update d (mkDevice "AA:BB" (Some "10.0.0.5") (Some "")) false 9 in
  let online := update d (mkDevice "AA:BB" (Some "10.0.0.5") (Some "Phone")) true 9 in
  _name offline = Some "AA_BB" /\ _ip_address offline = None
  /\ _last_activity offline = None
  /\ _name online = Some "Phone" /\ _ip_address online = Some "10.0.0.5"
  /\ _last_activity online = Some 9.
Proof.
  intros d offline online.
  pose proof (update_effect d (mkDevice "AA:BB" (Some "10.0.0.5") (Some ""))
                false 9) as (Hn1 & Hoff & _).
  pose proof (update_effect d (mkDevice "AA:BB" (Some "10.0.0.5") (Some "Phone"))
                true 9) as (Hn2 & _ & Hon).
  destruct (Hn1 (or_introl eq_refl)) as [_ Hn1'].
  destruct (Hn2 (or_introl eq_refl)) as [Hn2' _].
  destruct (Hoff eq_refl) as (_ & Hip1 & _ & Hla1).
  destruct (Hon eq_refl) as (_ & Hip2 & Hla2 & _).
  exact (conj (Hn1' (or_intror eq_refl))
          (conj Hip1 (conj Hla1
            (conj (Hn2' "Phone" eq_refl ltac:(discriminate))
              (conj Hip2 Hla2))))).
Defined.

(** The placeholder name has the length of the MAC and no colon. *)
Lemma replace_colon_free s : ~ (":"%char ∈ list_ascii_of_string (Py.replace ":" "_" s)).
Proof.
  induction s as [|c s IH]; simpl.
  - apply not_elem_of_nil.
  - rewrite elem_of_cons. intros [H|H]; [|done].
    destruct (Ascii.eqb_spec c ":"); [discriminate|congruence].
Qed.

(** C9.  The same observation applied twice: the second [update]
    leaves every attribute as the first left it, except that an
    online observation moves the last activity to the time of the
    second call. *)
Theorem update_twice d dev_info dev_home now1 now2 :
  let d1 := update d dev_info dev_home now1 in
  update d1 dev_info dev_home now2
  = FritzScannerEntity.mk (_mac d1) (_name d1) (_ip_address d1)
      (if dev_home then Some now2 else _last_activity d1)
      (_connected d1) (_icon d1).
Proof.
  intros d1.
  assert (Hname : _name (update d1 dev_info dev_home now2) = _name d1).
  { rewrite update_name. destruct (Py.truthy (_name d1)) eqn:Ht; [done|].
    subst d1. rewrite update_mac.
    rewrite update_name in Ht |- *.
    destruct (Py.truthy (_name d)) eqn:Hd; [congruence | done]. }
  unfold update at 1. fold (update d1 dev_info dev_home now2) in Hname.
  unfold update in Hname at 1.
  destruct dev_home; simpl in *; rewrite Hname; subst d1; by unfold update.
Qed.

Lemma last_activity_origin os d t :
  _last_activity (apply_all d os) = Some t ->
  _last_activity d = Some t \/ t ∈ os.*2.
Proof.
  revert d. induction os as [|o os IH]; intros d H; [by left|].
  simpl in H. apply IH in H as [H|H].
  - unfold apply_obs in H. rewrite update_last_activity in H.
    destruct o.1.2; [|by left].
    right. simpl. injection H as <-. apply list_elem_of_here.
  - right. simpl. by apply list_elem_of_further.
Qed.

Lemma last_activity_grows os d t0 t1 :
  _last_activity d = Some t0 -> t1 <= t0 ->
  (forall t, t ∈ os.*2 -> t1 <= t) ->
  exists t2, _last_activity (apply_all d os) = Some t2 /\ t1 <= t2.
Proof.
  revert d t0. induction os as [|o os IH]; intros d t0 Hd Hle Hall.
  - exists t0. by split.
  - simpl. destruct o.1.2 eqn:Hhome.
    + apply (IH _ o.2).
      * unfold apply_obs. by rewrite update_last_activity, Hhome.
      * apply Hall. simpl. apply list_elem_of_here.
      * intros t Ht. apply Hall. simpl. by apply list_elem_of_further.
    + apply (IH _ t0); [|done|].
      * unfold apply_obs. by rewrite update_last_activity, Hhome.
      * intros t Ht. apply Hall. simpl. by apply list_elem_of_further.
Qed.

(** C10.  With a clock that does not go back, the last activity of an
    entity starts unset, is only ever replaced by the time of an online
    observation, and once set is never unset and never moves back. *)
Theorem last_activity_monotone mac0 name0 os1 os2 :
  StronglySorted Z.le (os1.*2 ++ os2.*2)%list ->
  let d0 := FritzScannerEntity.__init__ mac0 name0 in
  let d1 := apply_all d0 os1 in
  let d2 := apply_all d1 os2 in
  _last_activity d0 = None
  /\ (forall o, _last_activity (apply_obs d1 o)
                = if o.1.2 then Some o.2 else _last_activity d1)
  /\ (forall t1, _last_activity d1 = Some t1 ->
                 exists t2, _last_activity d2 = Some t2 /\ t1 <= t2).
Proof.
  intros Hsorted d0 d1 d2. split; [done|]. split.
  - intros o. unfold apply_obs. apply update_last_activity.
  - intros t1 H1. subst d2.
    apply (last_activity_grows os2 d1 t1 t1); [done|lia|].
    intros t Ht. subst d1.
    apply last_activity_origin in H1 as [H1|H1]; [discriminate|].
    by apply (StronglySorted_app_1_elem_of _ _ _ _ _ Hsorted).
Qed.

Lemma last_activity_monotone_witness :
  let d1 := apply_all (FritzScannerEntity.__init__ "AA:BB" None)
              [(mkDevice "AA:BB" (Some "10.0.0.5") (Some "Phone"), true, 3)] in
  let d2 := apply_all d1
              [(mkDevice "AA:BB" None None, false, 4);
               (mkDevice "AA:BB" (Some "10.0.0.6") None, true, 8)] in
  exists t2, _last_activity d2 = Some t2 /\ 3 <= t2.
Proof.
  intros d1 d2.
  refine (proj2 (proj2 (last_activity_monotone "AA:BB" None
    [(mkDevice "AA:BB" (Some "10.0.0.5") (Some "Phone"), true, 3)]
    [(mkDevice "AA:BB" None None, false, 4);
     (mkDevice "AA:BB" (Some "10.0.0.6") None, true, 8)] _)) 3 eq_refl).
  simpl. repeat constructor; lia.
Defined.

(** An entity as a sequence of [update] calls leaves it never has an
    address while it is not connected. *)
Lemma ip_address_only_connected d os :
  (is_Some (_ip_address d) -> _connected d = true) ->
  is_Some (_ip_address (apply_all d os)) -> _connected (apply_all d os) = true.
Proof.
  revert d. induction os as [|o os IH]; intros d Hd; [done|].
  simpl. apply IH. unfold apply_obs.
  rewrite update_ip_address, update_connected.
  destruct o.1.2; [done|]. by intros [? ?].
Qed.

Lemma connected_has_ip_address d os :
  Forall (fun o : observation => o.1.2 = true -> is_Some (ip o.1.1)) os ->
  (_connected d = true -> is_Some (_ip_address d)) ->
  _connected (apply_all d os) = true -> is_Some (_ip_address (apply_all d os)).
Proof.
  intros Hos. revert d. induction Hos as [|o os Ho Hos IH]; intros d Hd; [done|].
  simpl. apply IH. unfold apply_obs.
  rewrite update_ip_address, update_connected.
  destruct o.1.2; [auto | done].
Qed.

(** C4, as the code has it.  After any sequence of [update] calls on
    a new entity, an address that is set implies that the entity is
    connected; an online observation stores the observed address as it
    is, so a connected entity has an address when the online
    observations carried one. *)
Theorem ip_address_connected mac0 name0 os :
  let d := apply_all (FritzScannerEntity.__init__ mac0 name0) os in
  (is_Some (_ip_address d) -> _connected d = true)
  /\ (Forall (fun o : observation => o.1.2 = true -> is_Some (ip o.1.1)) os ->
      _connected d = true -> is_Some (_ip_address d)).
Proof.
  intros d. subst d. split.
  - apply ip_address_only_connected. by intros [? ?].
  - intros Hos. by apply connected_has_ip_address.
Qed.

Lemma ip_address_connected_witness :
  let d := apply_all (FritzScannerEntity.__init__ "AA:BB" None)
             [(mkDevice "AA:BB" None None, false, 1);
              (mkDevice "AA:BB" (Some "10.0.0.5") None, true, 2)] in
  is_Some (_ip_address d).
Proof.
  intros d.
  refine (proj2 (ip_address_connected "AA:BB" None
    [(mkDevice "AA:BB" None None, false, 1);
     (mkDevice "AA:BB" (Some "10.0.0.5") None, true, 2)]) _ eq_refl).
  repeat constructor; simpl; [discriminate | eauto].
Defined.

(** C4 as stated fails: an online observation without an address
    leaves the entity connected with no address. *)
Lemma ip_address_iff_connected_fails :
  let d := update (FritzScannerEntity.__init__ "AA:BB" None)
             (mkDevice "AA:BB" None (Some "Phone")) true 0 in
  ~ (is_Some (_ip_address d) <-> _connected d = true).
Proof.
  intros d [_ H]. destruct (H eq_refl) as [x Hx]. discriminate Hx.
Qed.

End Entity.

(** ** The scan *)

Section Scan.

Implicit Types (w : World) (h : known_host) (hosts : list known_host)
  (m : string) (d : FritzScannerEntity.t).

Lemma host_mac_None h :
  host_mac h = None
  <-> kh_mac h = None \/ kh_mac h = Some None \/ kh_mac h = Some (Some "").
Proof.
  unfold host_mac, dict_get.
  destruct (kh_mac h) as [[s|]|]; simpl.
  - destruct (String.eqb_spec s ""); simpl; split; intros H;
      try discriminate; subst; auto.
    destruct H as [H|[H|H]]; congruence.
  - split; auto.
  - split; auto.
Qed.

(** The three ways the loop body can go. *)
Lemma scan_host_cases h new_device w :
  (host_mac h = None /\ scan_host h new_device w = (Py.Return new_device, w))
  \/ (is_Some (host_mac h) /\ ~ readable h
      /\ exists key, scan_host h new_device w = (Py.Raise (Py.KeyError key), w))
  \/ (exists m dev_name dev_ip dev_home,
        host_mac h = Some m /\ kh_name h = Some dev_name
        /\ kh_ip h = Some dev_ip /\ kh_status h = Some dev_home
        /\ scan_host h new_device w
           = (Py.Return
                (new_device || bool_decide (_devices (self w) !! m = None)),
              file_observation m (mkDevice m dev_ip dev_name) dev_home w)).
Proof.
  unfold scan_host, host_mac, readable.
  destruct (dict_get (kh_mac h)) as [m|] eqn:Hmac; [|by left].
  destruct (Py.truthy (Some m)) eqn:Ht; [|by left]. simpl negb. cbv iota.
  destruct (kh_name h) as [dev_name|] eqn:Hn.
  2:{ right; left. split; [by eexists|]. split; [|by eexists].
      unfold host_mac. rewrite Hmac, Ht. intros H.
      destruct H as ([? ?] & _); [by eexists | done]. }
  destruct (kh_ip h) as [dev_ip|] eqn:Hi.
  2:{ right; left. split; [by eexists|]. split; [|by eexists].
      unfold host_mac. rewrite Hmac, Ht. intros H.
      destruct H as (_ & [? ?] & _); [by eexists | done]. }
  destruct (kh_status h) as [dev_home|] eqn:Hs.
  2:{ right; left. split; [by eexists|]. split; [|by eexists].
      unfold host_mac. rewrite Hmac, Ht. intros H.
      destruct H as (_ & _ & [? ?]); [by eexists | done]. }
  right; right. exists m, dev_name, dev_ip, dev_home.
  repeat (split; [done|]).
  unfold bind, getitem, ret, get_devices, entity_update, set_devices,
    dt_utcnow, file_observation, bind, ret. simpl.
  destruct (_devices (self w) !! m) as [d|] eqn:Hd; simpl.
  - by rewrite orb_false_r.
  - by rewrite orb_true_r.
Qed.

Lemma scan_host_skip h new_device w :
  host_mac h = None -> scan_host h new_device w = (Py.Return new_device, w).
Proof.
  intros Hmac.
  destruct (scan_host_cases h new_device w)
    as [[_ H]|[([? H] & _)|(? & ? & ? & ? & H & _)]]; [done|congruence..].
Qed.

Lemma scan_loop_skip hosts1 h hosts2 new_device w :
  host_mac h = None ->
  scan_loop (hosts1 ++ h :: hosts2)%list new_device w
  = scan_loop (hosts1 ++ hosts2)%list new_device w.
Proof.
  intros Hmac. revert new_device w.
  induction hosts1 as [|h1 hosts1 IH]; intros new_device w; simpl.
  - unfold bind. by rewrite scan_host_skip.
  - unfold bind. destruct (scan_host h1 new_device w) as [[nd|e] w1]; [|done].
    apply IH.
Qed.

(** What [scan_devices] comes to on a failed and on a working tools
    object. *)
Lemma scan_devices_failed hosts w :
  success (self w) = false -> scan_devices hosts w = (Py.Raise Py.TypeError, w).
Proof.
  intros Hs. unfold scan_devices, bind, _update_info. by rewrite Hs.
Qed.

Lemma scan_devices_working hosts w :
  success (self w) = true ->
  scan_devices hosts w
  = match scan_loop hosts false w with
    | (Py.Return new_device, w') =>
        (Py.Return tt,
         mkWorld (self w')
           (dispatched w' ++ signal_device_update
              :: (if new_device then [signal_device_new] else []))%list
           (utcnow w') (utcnow_calls w'))
    | (Py.Raise e, w') => (Py.Raise e, w')
    end.
Proof.
  intros Hs. unfold scan_devices, bind, _update_info. rewrite Hs. simpl.
  destruct (scan_loop hosts false w) as [[nd|e] w']; [|done].
  unfold async_dispatcher_send, ret. destruct nd; simpl; [|done].
  by rewrite <- app_assoc.
Qed.

(** C1, as the code has it.  On a tools object whose [success] flag is
    false, [scan_devices] changes no entity, adds nothing to the
    registry and sends no signal: the world is the one before.  But it
    does not return: [_update_info] hands [None] to the [for] loop,
    which raises [TypeError]. *)
Theorem scan_devices_failed_raises hosts w :
  success (self w) = false ->
  scan_devices hosts w = (Py.Raise Py.TypeError, w)
  /\ _devices (self (after_scan w hosts)) = _devices (self w)
  /\ dispatched (after_scan w hosts) = dispatched w.
Proof.
  intros Hs. unfold after_scan. by rewrite scan_devices_failed.
Qed.

Lemma scan_devices_failed_raises_witness :
  let w := mkWorld (FritzBoxTools.mk false ∅) [] (fun k => Z.of_nat k) 0 in
  scan_devices [mkHost (Some (Some "AA:BB")) (Some (Some "Phone"))
                  (Some (Some "192.168.1.5")) (Some true)] w
  = (Py.Raise Py.TypeError, w).
Proof.
  intros w. exact (proj1 (scan_devices_failed_raises _ w eq_refl)).
Defined.

(** C7.  An entry whose MAC is missing, [None] or empty is skipped:
    its turn of the loop leaves the world and the flag as they were,
    and the scan goes as if the entry were not in the list, the other
    entries being processed all the same. *)
Theorem scan_skips_host_without_mac hosts1 h hosts2 w :
  kh_mac h = None \/ kh_mac h = Some None \/ kh_mac h = Some (Some "") ->
  (forall new_device, scan_host h new_device w = (Py.Return new_device, w))
  /\ scan_devices (hosts1 ++ h :: hosts2)%list w
     = scan_devices (hosts1 ++ hosts2)%list w.
Proof.
  intros Hmac. apply host_mac_None in Hmac. split.
  - intros new_device. by apply scan_host_skip.
  - destruct (success (self w)) eqn:Hs.
    + rewrite !scan_devices_working by done. by rewrite scan_loop_skip.
    + by rewrite !scan_devices_failed.
Qed.

Lemma scan_skips_host_without_mac_witness :
  let w := mkWorld (FritzBoxTools.mk true ∅) [] (fun k => Z.of_nat k) 0 in
  let phone := mkHost (Some (Some "AA:BB")) (Some (Some "Phone"))
                 (Some (Some "192.168.1.5")) (Some true) in
  let no_mac := mkHost None None (Some (Some "1.2.3.4")) (Some true) in
  scan_devices [no_mac] w = scan_devices [] w
  /\ scan_devices [phone; no_mac] w = scan_devices [phone] w.
Proof.
  intros w phone no_mac. split.
  - exact (proj2 (scan_skips_host_without_mac [] no_mac [] w (or_introl eq_refl))).
  - exact (proj2 (scan_skips_host_without_mac [phone] no_mac [] w
                    (or_introl eq_refl))).
Defined.

Lemma file_observation_lookup_None m dev_info dev_home w m' :
  _devices (self (file_observation m dev_info dev_home w)) !! m' = None
  <-> m' <> m /\ _devices (self w) !! m' = None.
Proof.
  unfold file_observation. simpl. rewrite lookup_insert_None.
  split; intros [? ?]; split; congruence.
Qed.

Lemma scan_loop_readable hosts :
  Forall readable hosts ->
  forall new_device w,
  exists new_device' w',
    scan_loop hosts new_device w = (Py.Return new_device', w')
    /\ dispatched w' = dispatched w
    /\ (new_device' = true <-> new_device = true \/ discovers w hosts).
Proof.
  induction 1 as [|h hosts Hh Hhosts IH]; intros new_device w.
  - exists new_device, w. repeat split; [tauto|].
    intros [H|(h & m & Hin & _)]; [done|]. by apply elem_of_nil in Hin.
  - simpl. unfold bind.
    destruct (scan_host_cases h new_device w)
      as [[Hmac ->]|[(Hmac & Hnr & _)|(m & dn & di & dh & Hmac & _ & _ & _ & ->)]].
    + destruct (IH new_device w) as (nd' & w' & -> & Hd & Hnd).
      exists nd', w'. repeat split; [done| |].
      * intros H. apply Hnd in H as [H|(h' & m' & Hin & Hm' & Hl)]; [by left|].
        right. exists h', m'. by rewrite elem_of_cons; auto.
      * intros [H|(h' & m' & Hin & Hm' & Hl)]; apply Hnd; [by left|].
        apply elem_of_cons in Hin as [->|Hin]; [congruence|].
        right. by exists h', m'.
    + done.
    + set (w1 := file_observation m (mkDevice m di dn) dh w).
      destruct (IH (new_device || bool_decide (_devices (self w) !! m = None)) w1)
        as (nd' & w' & -> & Hd & Hnd).
      exists nd', w'. repeat split; [done| |].
      * intros H. apply Hnd in H as [H|(h' & m' & Hin & Hm' & Hl)].
        -- apply orb_true_iff in H as [H|H]; [by left|].
           apply bool_decide_eq_true in H. right. exists h, m.
           by rewrite elem_of_cons; auto.
        -- apply file_observation_lookup_None in Hl as [_ Hl].
           right. exists h', m'. by rewrite elem_of_cons; auto.
      * intros H. apply Hnd. rewrite orb_true_iff, bool_decide_eq_true.
        destruct H as [H|(h' & m' & Hin & Hm' & Hl)]; [by auto|].
        destruct (decide (m' = m)) as [->|Hne]; [by auto|].
        apply elem_of_cons in Hin as [->|Hin]; [congruence|].
        right. exists h', m'. repeat split; [done..|].
        by apply file_observation_lookup_None.
Qed.

(** C3, as the code has it.  A scan on a working tools object, over
    entries it can read (an entry with a MAC has the keys ["name"],
    ["ip"] and ["status"]), returns; it has then sent the update signal,
    whatever the list (empty, nothing new), and after it the new-device
    signal exactly when some entry had a MAC that was not in the
    registry when the scan began. *)
Theorem scan_signals hosts w :
  success (self w) = true ->
  Forall readable hosts ->
  exists w',
    scan_devices hosts w = (Py.Return tt, w')
    /\ ((discovers w hosts
         /\ dispatched w'
            = (dispatched w ++ [signal_device_update; signal_device_new])%list)
        \/ (~ discovers w hosts
            /\ dispatched w' = (dispatched w ++ [signal_device_update])%list)).
Proof.
  intros Hs Hr. rewrite scan_devices_working by done.
  destruct (scan_loop_readable hosts Hr false w) as (nd & w' & -> & Hd & Hnd).
  eexists. split; [done|]. simpl. rewrite Hd. destruct nd.
  - left. split; [|done]. destruct Hnd as [Hnd _].
    by destruct (Hnd eq_refl).
  - right. split; [|done]. intros H.
    destruct Hnd as [_ Hnd]. by specialize (Hnd (or_intror H)).
Qed.

Lemma scan_signals_witness :
  let known := FritzScannerEntity.mk "AA:BB" (Some "Phone") None None false
                 (Some "mdi:lan-disconnect") in
  let w := mkWorld (FritzBoxTools.mk true {[ "AA:BB" := known ]}) []
             (fun k => Z.of_nat k) 0 in
  let hosts :=
    [mkHost (Some (Some "AA:BB")) (Some (Some "Phone"))
       (Some (Some "192.168.1.5")) (Some true);
     mkHost (Some (Some "CC:DD")) (Some None) (Some None) (Some false)] in
  exists w',
    scan_devices hosts w = (Py.Return tt, w')
    /\ dispatched w' = [signal_device_update; signal_device_new].
Proof.
  intros known w hosts.
  destruct (scan_signals hosts w eq_refl) as (w' & Hscan & [[_ Hd]|[Hno _]]).
  - apply Forall_cons_2; [|apply Forall_cons_2; [|apply Forall_nil_2]];
      intros _; simpl; repeat split; by eexists.
  - exists w'. exact (conj Hscan Hd).
  - exfalso. apply Hno.
    exists (mkHost (Some (Some "CC:DD")) (Some None) (Some None) (Some false)),
      "CC:DD".
    split; [apply list_elem_of_further, list_elem_of_here|].
    split; reflexivity.
Defined.

(** C3 as stated fails: a working tools object whose host list has an
    entry with a MAC but without the keys ["name"] and ["ip"] raises
    [KeyError] in the loop, and the update signal is not sent, though
    the entry before it was filed. *)
Lemma scan_signals_unreadable_entry :
  let w := mkWorld (FritzBoxTools.mk true ∅) [] (fun k => Z.of_nat k) 0 in
  let hosts :=
    [mkHost (Some (Some "AA:BB")) (Some (Some "Phone"))
       (Some (Some "192.168.1.5")) (Some true);
     mkHost (Some (Some "CC:DD")) None None (Some true)] in
  success (self w) = true
  /\ (exists w', scan_devices hosts w = (Py.Raise (Py.KeyError "name"), w'))
  /\ is_Some (_devices (self (after_scan w hosts)) !! "AA:BB")
  /\ dispatched (after_scan w hosts) = []
  /\ signal_device_update ∉ dispatched (after_scan w hosts).
Proof.
  intros w hosts. split; [reflexivity|].
  split; [eexists; vm_compute; reflexivity|].
  split; [vm_compute; by eexists|].
  assert (Hd : dispatched (after_scan w hosts) = [])
    by (vm_compute; reflexivity).
  split; [exact Hd|]. rewrite Hd. apply not_elem_of_nil.
Qed.

Lemma file_observation_keeps m dev_info dev_home w m' d :
  _devices (self w) !! m' = Some d ->
  exists os,
    _devices (self (file_observation m dev_info dev_home w)) !! m'
    = Some (apply_all d os).
Proof.
  intros Hd. unfold file_observation. simpl.
  destruct (decide (m = m')) as [->|Hne].
  - rewrite lookup_insert_eq, Hd. simpl.
    by exists [(dev_info, dev_home, utcnow w (utcnow_calls w))].
  - rewrite lookup_insert_ne by done. by exists [].
Qed.

Lemma scan_loop_keeps hosts new_device w m d :
  _devices (self w) !! m = Some d ->
  exists os,
    _devices (self (scan_loop hosts new_device w).2) !! m
    = Some (apply_all d os).
Proof.
  revert new_device w d.
  induction hosts as [|h hosts IH]; intros new_device w d Hd.
  - by exists [].
  - simpl. unfold bind.
    destruct (scan_host_cases h new_device w)
      as [[_ ->]|[(_ & _ & key & ->)|(m' & dn & di & dh & _ & _ & _ & _ & ->)]].
    + by apply IH.
    + by exists [].
    + destruct (file_observation_keeps m' (mkDevice m' di dn) dh w m d Hd)
        as [os1 H1].
      destruct (IH (new_device || bool_decide (_devices (self w) !! m' = None))
                  _ _ H1) as [os2 H2].
      exists (os1 ++ os2)%list. by rewrite apply_all_app.
Qed.

Lemma scan_loop_untouched hosts new_device w m :
  (forall h, h ∈ hosts -> host_mac h <> Some m) ->
  _devices (self (scan_loop hosts new_device w).2) !! m
  = _devices (self w) !! m.
Proof.
  revert new_device w.
  induction hosts as [|h hosts IH]; intros new_device w Hm; [done|].
  assert (Hrest : forall h', h' ∈ hosts -> host_mac h' <> Some m).
  { intros h' Hin. apply Hm. by apply list_elem_of_further. }
  simpl. unfold bind.
  destruct (scan_host_cases h new_device w)
    as [[_ ->]|[(_ & _ & key & ->)|(m' & dn & di & dh & Hmac & _ & _ & _ & ->)]].
  - by apply IH.
  - done.
  - rewrite IH by done. unfold file_observation. simpl.
    apply lookup_insert_ne. intros ->.
    by apply (Hm h); [apply list_elem_of_here|].
Qed.

Lemma scan_loop_updates hosts :
  Forall readable hosts ->
  forall new_device w m d,
  _devices (self w) !! m = Some d ->
  exists times : list Z,
    List.length times = List.length (omap (host_update m) hosts)
    /\ _devices (self (scan_loop hosts new_device w).2) !! m
       = Some (apply_all d (zip (omap (host_update m) hosts) times)).
Proof.
  induction 1 as [|h hosts Hh Hhosts IH]; intros new_device w m d Hd.
  - by exists [].
  - change (omap (host_update m) (h :: hosts))
      with (match host_update m h with
            | Some o => o :: omap (host_update m) hosts
            | None => omap (host_update m) hosts
            end).
    cbn [scan_loop]. unfold bind.
    destruct (scan_host_cases h new_device w)
      as [[Hmac ->]|[(_ & Hnr & _)|(m' & dn & di & dh & Hmac & Hn & Hi & Hs & ->)]].
    + assert (Hu : host_update m h = None)
        by (unfold host_update; by rewrite Hmac).
      rewrite Hu. by apply IH.
    + done.
    + assert (Hu : host_update m h
                   = if decide (m' = m) then Some (mkDevice m' di dn, dh)
                     else None)
        by (unfold host_update; by rewrite Hmac, Hn, Hi, Hs).
      rewrite Hu. destruct (decide (m' = m)) as [->|Hne].
      * set (d1 := update d (mkDevice m di dn) dh (utcnow w (utcnow_calls w))).
        destruct (IH (new_device || bool_decide (_devices (self w) !! m = None))
                    (file_observation m (mkDevice m di dn) dh w) m d1)
          as (times & Hlen & Hl).
        { unfold file_observation. simpl. by rewrite lookup_insert_eq, Hd. }
        exists (utcnow w (utcnow_calls w) :: times). split.
        -- simpl. by rewrite Hlen.
        -- by rewrite Hl.
      * apply IH. unfold file_observation. simpl.
        by rewrite lookup_insert_ne.
Qed.

Lemma after_scan_devices w hosts :
  _devices (self (after_scan w hosts))
  = if success (self w) then _devices (self (scan_loop hosts false w).2)
    else _devices (self w).
Proof.
  unfold after_scan. destruct (success (self w)) eqn:Hs.
  - rewrite scan_devices_working by done.
    by destruct (scan_loop hosts false w) as [[nd|e] w'].
  - by rewrite scan_devices_failed.
Qed.

Lemma after_scan_keeps w hosts m d :
  _devices (self w) !! m = Some d ->
  exists os, _devices (self (after_scan w hosts)) !! m = Some (apply_all d os).
Proof.
  intros Hd. rewrite after_scan_devices. destruct (success (self w)).
  - by apply scan_loop_keeps.
  - by exists [].
Qed.

Lemma scans_keep ticks w m d :
  _devices (self w) !! m = Some d ->
  exists os, _devices (self (scans w ticks)) !! m = Some (apply_all d os).
Proof.
  revert w d. induction ticks as [|hosts ticks IH]; intros w d Hd.
  - by exists [].
  - simpl. destruct (after_scan_keeps w hosts m d Hd) as [os1 H1].
    destruct (IH _ _ H1) as [os2 H2].
    exists (os1 ++ os2)%list. by rewrite apply_all_app.
Qed.

(** C8, as the code has it.  An entity that is in the registry under
    [m] stays there through any sequence of scans, returning or raising,
    and is then what some [update] calls, possibly none, made of it,
    with its MAC as it was.  One scan leaves it as it is when no entry
    of the list has the MAC [m]; on a working tools object and over
    entries it can read, one scan applies to it, in place and in order,
    the [update] calls of the entries with that MAC. *)
Theorem device_never_removed w m d :
  _devices (self w) !! m = Some d ->
  (forall ticks, exists d',
      _devices (self (scans w ticks)) !! m = Some d'
      /\ _mac d' = _mac d /\ exists os, d' = apply_all d os)
  /\ (forall hosts,
        (forall h, h ∈ hosts -> host_mac h <> Some m) ->
        _devices (self (after_scan w hosts)) !! m = Some d)
  /\ (forall hosts,
        success (self w) = true -> Forall readable hosts ->
        exists times : list Z,
          List.length times = List.length (omap (host_update m) hosts)
          /\ _devices (self (after_scan w hosts)) !! m
             = Some (apply_all d (zip (omap (host_update m) hosts) times))).
Proof.
  intros Hd. repeat split.
  - intros ticks. destruct (scans_keep ticks w m d Hd) as [os Hos].
    exists (apply_all d os). split; [done|]. split; [|by exists os].
    apply apply_all_mac.
  - intros hosts Hm. rewrite after_scan_devices.
    destruct (success (self w)); [|done].
    by rewrite scan_loop_untouched.
  - intros hosts Hs Hr. rewrite after_scan_devices, Hs.
    by apply scan_loop_updates.
Qed.

Lemma device_never_removed_witness :
  let phone :=
    FritzScannerEntity.mk "AA:BB" (Some "Phone") None None false
      (Some "mdi:lan-disconnect") in
  let w := mkWorld (FritzBoxTools.mk true {[ "AA:BB" := phone ]}) []
             (fun k => Z.of_nat k) 0 in
  let hosts :=
    [mkHost (Some (Some "CC:DD")) (Some None) (Some None) (Some true);
     mkHost (Some (Some "AA:BB")) (Some None) (Some (Some "10.0.0.5"))
       (Some true)] in
  (exists d',
     _devices (self (scans w
       [hosts; [mkHost (Some (Some "AA:BB")) None None (Some true)]; []]))
       !! "AA:BB" = Some d'
     /\ _mac d' = "AA:BB")
  /\ (exists now,
        _devices (self (after_scan w hosts)) !! "AA:BB"
        = Some (update phone (mkDevice "AA:BB" (Some "10.0.0.5") None)
                  true now)).
Proof.
  intros phone w hosts.
  destruct (device_never_removed w "AA:BB" phone eq_refl)
    as (Hscans & _ & Hupdated).
  split.
  - destruct (Hscans
      [hosts; [mkHost (Some (Some "AA:BB")) None None (Some true)]; []])
      as (d' & Hd' & Hmac & _).
    exists d'. exact (conj Hd' Hmac).
  - destruct (Hupdated hosts eq_refl) as (times & Hlen & Hl).
    + apply Forall_cons_2; [|apply Forall_cons_2; [|apply Forall_nil_2]];
        intros _; simpl; repeat split; by eexists.
    + destruct times as [|now [|? ?]]; [discriminate Hlen| |discriminate Hlen].
      exists now. exact Hl.
Defined.

(** C8 as stated fails: the scan below raises [KeyError] at its first
    entry, which has a MAC but no ["name"] key, and so leaves the entity
    of "AA:BB" as it was, connected with its address, although the MAC
    "AA:BB" is in the host list, with an offline observation that no
    [update] call has applied. *)
Lemma device_untouched_with_mac_present :
  let phone :=
    FritzScannerEntity.mk "AA:BB" (Some "Phone") (Some "10.0.0.5") (Some 0)
      true (Some "mdi:lan-connect") in
  let w := mkWorld (FritzBoxTools.mk true {[ "AA:BB" := phone ]}) []
             (fun k => Z.of_nat k) 1 in
  let gone := mkHost (Some (Some "AA:BB")) (Some None) (Some None)
                (Some false) in
  let hosts := [mkHost (Some (Some "CC:DD")) None None (Some true); gone] in
  gone ∈ hosts
  /\ host_mac gone = Some "AA:BB"
  /\ _devices (self (after_scan w hosts)) !! "AA:BB" = Some phone
  /\ forall now, update phone (mkDevice "AA:BB" None None) false now <> phone.
Proof.
  intros phone w gone hosts.
  split; [apply list_elem_of_further, list_elem_of_here|].
  split; [reflexivity|]. split; [vm_compute; reflexivity|].
  intros now H. discriminate H.
Qed.

(** C2, as the code has it.  From an empty registry, the scan of
    [{mac: "AA:BB", ip: "192.168.1.5", name: "Phone", status: True}]
    leaves one entity, named "Phone" and connected, and sends the
    update signal and then the new-device signal.  A second scan of
    [{mac: "AA:BB", ip: None, name: None, status: False}], the keys
    ["ip"] and ["name"] being there with the value [None], leaves that
    one entity with no address, not connected and still named "Phone",
    and sends the update signal only. *)
Theorem scan_example (clock : nat -> Z) :
  let w0 := mkWorld (FritzBoxTools.mk true ∅) [] clock 0 in
  let first := [mkHost (Some (Some "AA:BB")) (Some (Some "Phone"))
                  (Some (Some "192.168.1.5")) (Some true)] in
  let second := [mkHost (Some (Some "AA:BB")) (Some None) (Some None)
                   (Some false)] in
  exists w1 w2 d1 d2,
    scan_devices first w0 = (Py.Return tt, w1)
    /\ _devices (self w1) = {[ "AA:BB" := d1 ]}
    /\ _name d1 = Some "Phone" /\ _connected d1 = true
    /\ dispatched w1 = [signal_device_update; signal_device_new]
    /\ scan_devices second w1 = (Py.Return tt, w2)
    /\ _devices (self w2) = {[ "AA:BB" := d2 ]}
    /\ _mac d2 = _mac d1 /\ _ip_address d2 = None
    /\ _connected d2 = false /\ _name d2 = Some "Phone"
    /\ dispatched w2 = (dispatched w1 ++ [signal_device_update])%list.
Proof.
  intros w0 first second.
  exists (after_scan w0 first), (after_scan (after_scan w0 first) second),
    (FritzScannerEntity.mk "AA:BB" (Some "Phone") (Some "192.168.1.5")
       (Some (clock 0%nat)) true (Some "mdi:lan-connect")),
    (FritzScannerEntity.mk "AA:BB" (Some "Phone") None
       (Some (clock 0%nat)) false (Some "mdi:lan-disconnect")).
  repeat apply conj; vm_compute; reflexivity.
Qed.

(** C2 as stated fails: with the keys ["ip"] and ["name"] missing from
    the entry of the second scan, reading [known_host["name"]] raises
    [KeyError]; the entity stays connected with its address, and no
    signal is sent. *)
Lemma scan_example_missing_keys :
  let w0 := mkWorld (FritzBoxTools.mk true ∅) [] (fun k => Z.of_nat k) 0 in
  let first := [mkHost (Some (Some "AA:BB")) (Some (Some "Phone"))
                  (Some (Some "192.168.1.5")) (Some true)] in
  let second := [mkHost (Some (Some "AA:BB")) None None (Some false)] in
  let w1 := after_scan w0 first in
  let w2 := after_scan w1 second in
  scan_devices second w1 = (Py.Raise (Py.KeyError "name"), w1)
  /\ ~ (exists d2,
          _devices (self w2) !! "AA:BB" = Some d2
          /\ _ip_address d2 = None /\ _connected d2 = false
          /\ dispatched w2 = (dispatched w1 ++ [signal_device_update])%list).
Proof.
  intros w0 first second w1 w2. split; [vm_compute; reflexivity|].
  intros (d2 & Hd2 & Hip & _).
  vm_compute in Hd2. injection Hd2 as <-. discriminate Hip.
Qed.

End Scan.

(** ** More on the scanner entity *)

Section EntityMore.

Implicit Types (d : FritzScannerEntity.t) (dev_info : Device)
  (dev_home : bool) (o : observation) (os : list observation).

Lemma replace_not_empty old new s : s <> "" -> Py.replace old new s <> "".
Proof. by destruct s. Qed.

Lemma update_named d dev_info dev_home now :
  _mac d <> "" -> Py.truthy (_name (update d dev_info dev_home now)) = true.
Proof.
  intros Hmac. rewrite update_name.
  destruct (Py.truthy (_name d)) eqn:Hd; [done|].
  unfold Py.or. destruct (Py.truthy (name dev_info)) eqn:Hn; [done|].
  apply truthy_Some. by apply replace_not_empty.
Qed.

Lemma apply_all_named d os :
  Py.truthy (_name d) = true -> _name (apply_all d os) = _name d.
Proof.
  revert d. induction os as [|o os IH]; intros d Hd; [done|].
  simpl. assert (Hn : _name (apply_obs d o) = _name d).
  { unfold apply_obs. by rewrite update_name, Hd. }
  rewrite IH; [done|]. by rewrite Hn.
Qed.

(** X1.  The first [update] of an entity with a non-empty MAC gives it
    a non-empty name, and that name stays through all later calls: the
    name is the one of the first observation, or the placeholder when
    that observation had none. *)
Theorem name_decided_by_first_update d o os :
  _mac d <> "" ->
  Py.truthy (_name (apply_obs d o)) = true
  /\ _name (apply_all d (o :: os)) = _name (apply_obs d o).
Proof.
  intros Hmac.
  assert (H : Py.truthy (_name (apply_obs d o)) = true)
    by by apply update_named.
  split; [done|]. simpl. by apply apply_all_named.
Qed.

Lemma name_decided_by_first_update_witness :
  _name (apply_all (FritzScannerEntity.__init__ "AA:BB" None)
           [(mkDevice "AA:BB" None None, false, 1);
            (mkDevice "AA:BB" (Some "10.0.0.5") (Some "Phone"), true, 2)])
  = Some "AA_BB".
Proof.
  exact (proj2 (name_decided_by_first_update
    (FritzScannerEntity.__init__ "AA:BB" None)
    (mkDevice "AA:BB" None None, false, 1)
    [(mkDevice "AA:BB" (Some "10.0.0.5") (Some "Phone"), true, 2)]
    ltac:(discriminate))).
Defined.

Lemma last_online_snoc os o :
  last_online (os ++ [o])%list = if o.1.2 then Some o.2 else last_online os.
Proof.
  unfold last_online. rewrite filter_app.
  destruct o.1.2 eqn:Ho.
  - rewrite filter_cons_True by done. rewrite filter_nil.
    by rewrite last_snoc.
  - rewrite filter_cons_False by (by rewrite Ho). rewrite filter_nil.
    by rewrite app_nil_r.
Qed.

(** X2.  After any sequence of [update] calls the last activity is the
    clock reading of the last online observation, whatever the clock
    did in between; with no online observation it is what it was. *)
Theorem last_activity_last_online d os :
  _last_activity (apply_all d os)
  = match last_online os with
    | Some t => Some t
    | None => _last_activity d
    end.
Proof.
  induction os as [|o os IH] using rev_ind; [done|].
  rewrite apply_all_app. simpl. unfold apply_obs at 1.
  rewrite update_last_activity, last_online_snoc.
  by destruct o.1.2.
Qed.

Lemma update_registered m d dev_info dev_home now :
  _mac d = m -> m <> "" -> registered m (update d dev_info dev_home now).
Proof.
  intros Hmac Hm. split.
  - by rewrite update_mac.
  - done.
  - apply update_named. by rewrite Hmac.
  - unfold update. by destruct dev_home.
  - rewrite update_connected, update_ip_address. by intros ->.
Qed.

End EntityMore.

(** ** More on the scan *)

Section ScanMore.

Implicit Types (w : World) (h : known_host) (hosts : list known_host)
  (m : string) (d : FritzScannerEntity.t).

Lemma host_mac_not_empty h m : host_mac h = Some m -> m <> "".
Proof.
  unfold host_mac. destruct (dict_get (kh_mac h)) as [m'|]; [|done].
  destruct (Py.truthy (Some m')) eqn:Ht; [|done].
  intros [= <-]. by apply truthy_Some.
Qed.

Lemma file_observation_registry_ok m dev_info dev_home w :
  m <> "" ->
  registry_ok (_devices (self w)) ->
  registry_ok (_devices (self (file_observation m dev_info dev_home w))).
Proof.
  intros Hm Hok m' d'. unfold file_observation. simpl.
  destruct (decide (m = m')) as [<-|Hne].
  - rewrite lookup_insert_eq. intros [= <-].
    apply update_registered; [|done].
    destruct (_devices (self w) !! m) as [d|] eqn:Hd; simpl; [|done].
    by destruct (Hok m d Hd).
  - rewrite lookup_insert_ne by done. apply Hok.
Qed.

Lemma scan_loop_registry_ok hosts new_device w :
  registry_ok (_devices (self w)) ->
  registry_ok (_devices (self (scan_loop hosts new_device w).2)).
Proof.
  revert new_device w.
  induction hosts as [|h hosts IH]; intros new_device w Hok; [done|].
  simpl. unfold bind.
  destruct (scan_host_cases h new_device w)
    as [[_ ->]|[(_ & _ & key & ->)|(m & dn & di & dh & Hmac & _ & _ & _ & ->)]].
  - by apply IH.
  - done.
  - apply IH. apply file_observation_registry_ok; [|done].
    by apply (host_mac_not_empty h).
Qed.

Lemma after_scan_registry_ok w hosts :
  registry_ok (_devices (self w)) ->
  registry_ok (_devices (self (after_scan w hosts))).
Proof.
  intros Hok. rewrite after_scan_devices.
  destruct (success (self w)); [|done]. by apply scan_loop_registry_ok.
Qed.

(** X3.  What the registry keeps through any sequence of scans,
    returning or raising: every entity is filed under its own MAC, which
    is not empty, has a non-empty name, has the icon of its connectivity,
    and has no address while it is not connected. *)
Theorem scans_registry_ok w ticks :
  registry_ok (_devices (self w)) ->
  registry_ok (_devices (self (scans w ticks))).
Proof.
  revert w. induction ticks as [|hosts ticks IH]; intros w Hok; [done|].
  simpl. apply IH. by apply after_scan_registry_ok.
Qed.

Lemma scans_registry_ok_witness :
  let w := mkWorld (FritzBoxTools.mk true ∅) [] (fun k => Z.of_nat k) 0 in
  registry_ok (_devices (self (scans w
    [[mkHost (Some (Some "AA:BB")) (Some None) (Some None) (Some true)];
     [mkHost (Some (Some "AA:BB")) None None (Some false)]]))).
Proof.
  intros w. apply scans_registry_ok.
  intros m d Hd. simpl in Hd. by rewrite lookup_empty in Hd.
Defined.

Lemma elem_of_host_macs m hosts :
  m ∈ host_macs hosts <-> exists h, h ∈ hosts /\ host_mac h = Some m.
Proof. unfold host_macs. by rewrite elem_of_list_to_set, list_elem_of_omap. Qed.

Lemma host_macs_cons h hosts :
  host_macs (h :: hosts)
  = match host_mac h with Some m => {[m]} | None => ∅ end ∪ host_macs hosts.
Proof.
  unfold host_macs. simpl. destruct (host_mac h); simpl; [done|].
  by rewrite (left_id_L ∅ (∪)).
Qed.

Lemma file_observation_dom m dev_info dev_home w :
  dom (_devices (self (file_observation m dev_info dev_home w)))
  = {[m]} ∪ dom (_devices (self w)).
Proof. unfold file_observation. simpl. apply dom_insert_L. Qed.

Lemma scan_loop_dom_bounds hosts new_device w :
  dom (_devices (self w)) ⊆ dom (_devices (self (scan_loop hosts new_device w).2))
  /\ dom (_devices (self (scan_loop hosts new_device w).2))
     ⊆ dom (_devices (self w)) ∪ host_macs hosts.
Proof.
  revert new_device w.
  induction hosts as [|h hosts IH]; intros new_device w.
  - simpl. set_solver.
  - rewrite host_macs_cons. simpl. unfold bind.
    destruct (scan_host_cases h new_device w)
      as [[Hmac ->]|[(_ & _ & key & ->)|(m & dn & di & dh & Hmac & _ & _ & _ & ->)]].
    + rewrite Hmac. destruct (IH new_device w). set_solver.
    + simpl. set_solver.
    + rewrite Hmac.
      destruct (IH (new_device || bool_decide (_devices (self w) !! m = None))
                  (file_observation m (mkDevice m di dn) dh w)) as [H1 H2].
      rewrite file_observation_dom in H1, H2. set_solver.
Qed.

Lemma scan_loop_dom_readable hosts :
  Forall readable hosts ->
  forall new_device w,
  dom (_devices (self (scan_loop hosts new_device w).2))
  = dom (_devices (self w)) ∪ host_macs hosts.
Proof.
  induction 1 as [|h hosts Hh Hhosts IH]; intros new_device w.
  - simpl. unfold host_macs. simpl. set_solver.
  - rewrite host_macs_cons. simpl. unfold bind.
    destruct (scan_host_cases h new_device w)
      as [[Hmac ->]|[(_ & Hnr & _)|(m & dn & di & dh & Hmac & _ & _ & _ & ->)]].
    + rewrite Hmac, IH. set_solver.
    + done.
    + rewrite Hmac, IH, file_observation_dom. set_solver.
Qed.

(** X4.  A scan, returning or raising, removes no key from the
    registry and adds only MACs of its host list. *)
Theorem after_scan_dom_bounds w hosts :
  dom (_devices (self w)) ⊆ dom (_devices (self (after_scan w hosts)))
  /\ dom (_devices (self (after_scan w hosts)))
     ⊆ dom (_devices (self w)) ∪ host_macs hosts.
Proof.
  rewrite after_scan_devices. destruct (success (self w)).
  - apply scan_loop_dom_bounds.
  - set_solver.
Qed.

(** X5.  After a scan on a working tools object over entries it can
    read, the keys of the registry are those it had and the non-empty
    MACs of the host list. *)
Theorem after_scan_dom w hosts :
  success (self w) = true ->
  Forall readable hosts ->
  dom (_devices (self (after_scan w hosts)))
  = dom (_devices (self w)) ∪ host_macs hosts.
Proof.
  intros Hs Hr. rewrite after_scan_devices, Hs.
  by apply scan_loop_dom_readable.
Qed.

Lemma after_scan_dom_witness :
  let w := mkWorld (FritzBoxTools.mk true ∅) [] (fun k => Z.of_nat k) 0 in
  let hosts := [mkHost (Some (Some "AA:BB")) (Some None) (Some None) (Some true);
                mkHost (Some (Some "")) None None None] in
  dom (_devices (self (after_scan w hosts))) = dom (_devices (self w)) ∪ host_macs hosts.
Proof.
  intros w hosts. apply after_scan_dom; [reflexivity|].
  apply Forall_cons_2; [|apply Forall_cons_2; [|apply Forall_nil_2]].
  - intros _. simpl. repeat split; by eexists.
  - intros [m Hm]. discriminate Hm.
Defined.

Lemma scan_loop_app hosts1 hosts2 new_device w :
  scan_loop (hosts1 ++ hosts2)%list new_device w
  = match scan_loop hosts1 new_device w with
    | (Py.Return new_device', w') => scan_loop hosts2 new_device' w'
    | (Py.Raise e, w') => (Py.Raise e, w')
    end.
Proof.
  revert new_device w.
  induction hosts1 as [|h hosts1 IH]; intros new_device w; [done|].
  simpl. unfold bind.
  destruct (scan_host h new_device w) as [[nd|e] w1]; [apply IH | done].
Qed.

Lemma scan_host_missing_key h key new_device w :
  is_Some (host_mac h) -> missing_key h = Some key ->
  scan_host h new_device w = (Py.Raise (Py.KeyError key), w).
Proof.
  intros [m Hm]. unfold host_mac in Hm. unfold scan_host, missing_key.
  destruct (dict_get (kh_mac h)) as [m'|]; [|done].
  destruct (Py.truthy (Some m')); [|done]. simpl negb. cbv iota.
  destruct (kh_name h); [|by intros [= <-]].
  destruct (kh_ip h); [|by intros [= <-]].
  destruct (kh_status h); [done|by intros [= <-]].
Qed.

(** X6.  A scan stops at the first entry that has a MAC but lacks one
    of the keys ["name"], ["ip"], ["status"]: it raises [KeyError] for
    the first key missing, the entries before that one are in the
    registry as after a scan of them alone, and no signal is sent for
    them. *)
Theorem scan_stops_at_missing_key good bad rest key w :
  success (self w) = true ->
  Forall readable good ->
  is_Some (host_mac bad) ->
  missing_key bad = Some key ->
  exists w',
    scan_devices (good ++ bad :: rest)%list w = (Py.Raise (Py.KeyError key), w')
    /\ _devices (self w') = _devices (self (after_scan w good))
    /\ dispatched w' = dispatched w.
Proof.
  intros Hs Hgood Hmac Hkey.
  rewrite scan_devices_working by done.
  rewrite after_scan_devices, Hs, scan_loop_app.
  destruct (scan_loop_readable good Hgood false w) as (nd & w1 & -> & Hd & _).
  simpl. unfold bind. rewrite (scan_host_missing_key bad key) by done.
  by exists w1.
Qed.

Lemma scan_stops_at_missing_key_witness :
  let w := mkWorld (FritzBoxTools.mk true ∅) [] (fun k => Z.of_nat k) 0 in
  let phone := mkHost (Some (Some "AA:BB")) (Some (Some "Phone"))
                 (Some (Some "192.168.1.5")) (Some true) in
  let bad := mkHost (Some (Some "CC:DD")) (Some None) None (Some true) in
  exists w',
    scan_devices [phone; bad; phone] w = (Py.Raise (Py.KeyError "ip"), w')
    /\ _devices (self w') = _devices (self (after_scan w [phone]))
    /\ dispatched w' = dispatched w.
Proof.
  intros w phone bad.
  apply (scan_stops_at_missing_key [phone] bad [phone] "ip" w eq_refl).
  - apply Forall_cons_2; [|apply Forall_nil_2].
    intros _. simpl. repeat split; by eexists.
  - by eexists.
  - reflexivity.
Defined.

Lemma scan_loop_success hosts new_device w :
  success (self (scan_loop hosts new_device w).2) = success (self w).
Proof.
  revert new_device w.
  induction hosts as [|h hosts IH]; intros new_device w; [done|].
  simpl. unfold bind.
  destruct (scan_host_cases h new_device w)
    as [[_ ->]|[(_ & _ & key & ->)|(m & dn & di & dh & _ & _ & _ & _ & ->)]];
    [apply IH | done | by rewrite IH].
Qed.

Lemma after_scan_success w hosts :
  success (self (after_scan w hosts)) = success (self w).
Proof.
  unfold after_scan. destruct (success (self w)) eqn:Hs.
  - rewrite scan_devices_working by done.
    pose proof (scan_loop_success hosts false w) as H.
    destruct (scan_loop hosts false w) as [[nd|e] w']; simpl in *; congruence.
  - by rewrite scan_devices_failed.
Qed.

Lemma not_discovers w hosts :
  host_macs hosts ⊆ dom (_devices (self w)) -> ~ discovers w hosts.
Proof.
  intros Hsub (h & m & Hin & Hm & Hnone).
  assert (Hdom : m ∈ dom (_devices (self w))).
  { apply Hsub, elem_of_host_macs. by exists h. }
  apply elem_of_dom in Hdom as [d Hd]. congruence.
Qed.

(** X7.  Scanning the same host list again right after a scan of it
    finds no new device: the second scan returns having sent the update
    signal only. *)
Theorem rescan_sends_update_only w hosts :
  success (self w) = true ->
  Forall readable hosts ->
  exists w2,
    scan_devices hosts (after_scan w hosts) = (Py.Return tt, w2)
    /\ dispatched w2
       = (dispatched (after_scan w hosts) ++ [signal_device_update])%list.
Proof.
  intros Hs Hr.
  assert (Hs1 : success (self (after_scan w hosts)) = true)
    by by rewrite after_scan_success.
  rewrite scan_devices_working by done.
  destruct (scan_loop_readable hosts Hr false (after_scan w hosts))
    as (nd & w2 & -> & Hd & Hnd).
  assert (Hno : ~ discovers (after_scan w hosts) hosts).
  { apply not_discovers.
    rewrite after_scan_devices, Hs, scan_loop_dom_readable by done.
    apply union_subseteq_r. }
  destruct nd.
  - destruct Hnd as [Hnd _]. by destruct (Hnd eq_refl).
  - eexists. split; [done|]. simpl. by rewrite Hd.
Qed.

Lemma rescan_sends_update_only_witness :
  let w := mkWorld (FritzBoxTools.mk true ∅) [] (fun k => Z.of_nat k) 0 in
  let hosts := [mkHost (Some (Some "AA:BB")) (Some (Some "Phone"))
                  (Some (Some "192.168.1.5")) (Some true)] in
  exists w2,
    scan_devices hosts (after_scan w hosts) = (Py.Return tt, w2)
    /\ dispatched w2
       = (dispatched (after_scan w hosts) ++ [signal_device_update])%list.
Proof.
  intros w hosts. apply (rescan_sends_update_only w hosts eq_refl).
  apply Forall_cons_2; [|apply Forall_nil_2].
  intros _. simpl. repeat split; by eexists.
Defined.

(** X8.  When the connection failed, the constructor of the tools
    object does not return: its first scan raises [TypeError], with the
    registry empty and nothing sent. *)
Theorem init_failed_raises hosts w :
  FritzBoxTools_init false hosts w
  = (Py.Raise Py.TypeError,
     mkWorld (FritzBoxTools.mk false ∅) (dispatched w) (utcnow w)
       (utcnow_calls w)).
Proof. unfold FritzBoxTools_init. by rewrite scan_devices_failed. Qed.

(** X9.  When the connection worked and the router gives entries the
    scan can read, the constructor returns with a registry whose keys
    are the non-empty MACs of the host list, every entity well formed,
    the update signal sent, and the new-device signal sent after it
    unless no entry had a MAC. *)
Theorem init_connected hosts w :
  Forall readable hosts ->
  exists w',
    FritzBoxTools_init true hosts w = (Py.Return tt, w')
    /\ dom (_devices (self w')) = host_macs hosts
    /\ registry_ok (_devices (self w'))
    /\ dispatched w'
       = (dispatched w ++ signal_device_update
            :: (if decide (host_macs hosts = ∅) then []
                else [signal_device_new]))%list.
Proof.
  intros Hr. unfold FritzBoxTools_init.
  set (w0 := mkWorld (FritzBoxTools.mk true ∅) (dispatched w) (utcnow w)
               (utcnow_calls w)).
  rewrite scan_devices_working by done.
  pose proof (scan_loop_dom_readable hosts Hr false w0) as Hdom.
  assert (Hok0 : registry_ok (_devices (self w0))).
  { intros m d Hd. simpl in Hd. by rewrite lookup_empty in Hd. }
  pose proof (scan_loop_registry_ok hosts false w0 Hok0) as Hok.
  destruct (scan_loop_readable hosts Hr false w0) as (nd & w1 & Heq & Hd & Hnd).
  rewrite Heq in Hdom, Hok |- *. simpl in Hdom, Hok.
  eexists. split; [done|]. simpl. split; [|split; [done|]].
  - rewrite Hdom, dom_empty_L. by rewrite (left_id_L ∅ (∪)).
  - rewrite Hd. simpl. do 2 f_equal.
    destruct (decide (host_macs hosts = ∅)) as [He|Hne]; destruct nd; try done.
    + destruct Hnd as [Hnd _].
      destruct (Hnd eq_refl) as [?|(h & m & Hin & Hm & _)]; [done|].
      assert (Hin' : m ∈ host_macs hosts)
        by (apply elem_of_host_macs; by exists h).
      rewrite He in Hin'. by apply not_elem_of_empty in Hin'.
    + apply set_choose_L in Hne as [m Hm].
      apply elem_of_host_macs in Hm as (h & Hin & Hm).
      destruct Hnd as [_ Hnd]. exfalso.
      assert (Hdisc : discovers w0 hosts).
      { exists h, m. split; [done|]. split; [done|]. apply lookup_empty. }
      by specialize (Hnd (or_intror Hdisc)).
Qed.

Lemma init_connected_witness :
  let w := mkWorld (FritzBoxTools.mk false ∅) [] (fun k => Z.of_nat k) 0 in
  exists w',
    FritzBoxTools_init true
      [mkHost (Some (Some "AA:BB")) (Some None) (Some None) (Some false)] w
    = (Py.Return tt, w')
    /\ dom (_devices (self w')) = {["AA:BB"]}.
Proof.
  intros w.
  destruct (init_connected
    [mkHost (Some (Some "AA:BB")) (Some None) (Some None) (Some false)] w)
    as (w' & Hinit & Hdom & _).
  - apply Forall_cons_2; [|apply Forall_nil_2].
    intros _. simpl. repeat split; by eexists.
  - exists w'. split; [exact Hinit|].
    rewrite Hdom. unfold host_macs. simpl. apply (right_id_L ∅ (∪)).
Defined.

End ScanMore.

(** ** The trackers of device_tracker.py *)

Section Tracker.

Implicit Types (devices : gmap string FritzScannerEntity.t)
  (d : FritzScannerEntity.t) (t : FritzBoxTracker.t) (tr : gset string)
  (items : list (string * FritzScannerEntity.t)).

Lemma filter_not_elem_of_cons (m : string) tr (l : list string) :
  m ∉ l ->
  filter (fun m' => m' ∉ ({[m]} ∪ tr : gset string)) l
  = filter (fun m' => m' ∉ tr) l.
Proof.
  induction l as [|a l IH]; intros Hm; [done|].
  apply not_elem_of_cons in Hm as [Hne Hm].
  destruct (decide (a ∈ tr)) as [Ha|Ha].
  - rewrite !filter_cons_False by set_solver. by apply IH.
  - rewrite !filter_cons_True by set_solver. by rewrite IH.
Qed.

Lemma tracker_init_registered m d :
  registered m d ->
  exists icon, _icon d = Some icon
               /\ FritzBoxTracker.__init__ d = inr (tracker_of d icon).
Proof.
  intros [_ _ _ Hicon _]. eexists. split; [done|].
  unfold FritzBoxTracker.__init__. by rewrite Hicon.
Qed.

Lemma add_entities_loop_ok items :
  NoDup items.*1 ->
  Forall (fun md => registered md.1 md.2) items ->
  forall tr acc,
  exists news,
    add_entities_loop items tr acc
    = (inr (acc ++ news)%list, tr ∪ list_to_set items.*1)
    /\ FritzBoxTracker._mac <$> news = filter (fun m => m ∉ tr) items.*1
    /\ Forall (fun t => exists d,
                 (FritzBoxTracker._mac t, d) ∈ items
                 /\ FritzBoxTracker._name t = _name d
                 /\ _icon d = Some (FritzBoxTracker._icon t)
                 /\ FritzBoxTracker._active t = false
                 /\ FritzBoxTracker._attrs t = ∅) news.
Proof.
  induction items as [|[m d] items IH]; intros Hnd Hreg tr acc.
  - exists []. simpl. rewrite app_nil_r, (right_id_L ∅ (∪)). by repeat split.
  - apply NoDup_cons in Hnd as [Hm Hnd].
    apply Forall_cons in Hreg as [Hd Hreg]. simpl in Hd.
    simpl. destruct (decide (m ∈ tr)) as [Hin|Hin].
    + destruct (IH Hnd Hreg tr acc) as (news & -> & Hmacs & Hall).
      exists news. split; [f_equal; set_solver|]. split.
      * change (((m, d) :: items).*1) with (m :: items.*1).
        by rewrite filter_cons_False by (intros H; by apply H).
      * eapply Forall_impl; [exact Hall|].
        intros t (d' & Hin' & H'). exists d'. split; [|done].
        by apply list_elem_of_further.
    + destruct (tracker_init_registered m d Hd) as (icon & Hicon & ->).
      destruct (IH Hnd Hreg ({[m]} ∪ tr) (acc ++ [tracker_of d icon])%list)
        as (news & -> & Hmacs & Hall).
      exists (tracker_of d icon :: news). split; [|split].
      * f_equal; [by rewrite <- app_assoc | set_solver].
      * change (((m, d) :: items).*1) with (m :: items.*1).
        rewrite filter_cons_True by done.
        rewrite fmap_cons, Hmacs, filter_not_elem_of_cons by done.
        f_equal. simpl. by destruct Hd.
      * apply Forall_cons. split.
        -- exists d. simpl. destruct Hd as [-> _ Hname _ _].
           split; [apply list_elem_of_here|].
           unfold Py.or. by rewrite Hname.
        -- eapply Forall_impl; [exact Hall|].
           intros t (d' & Hin' & H'). exists d'. split; [|done].
           by apply list_elem_of_further.
Qed.

Lemma add_entities_loop_tracked items tr acc :
  (forall m, m ∈ items.*1 -> m ∈ tr) ->
  add_entities_loop items tr acc = (inr acc, tr).
Proof.
  induction items as [|[m d] items IH]; intros Hall; [done|].
  simpl. rewrite decide_True by (apply Hall; simpl; apply list_elem_of_here).
  apply IH. intros m' Hm'. apply Hall. simpl. by apply list_elem_of_further.
Qed.

Lemma elem_of_map_to_list_fst devices m :
  m ∈ (map_to_list devices).*1 <-> m ∈ dom devices.
Proof.
  rewrite elem_of_dom, list_elem_of_fmap. split.
  - intros ([m' d] & -> & Hin). apply elem_of_map_to_list in Hin. by exists d.
  - intros [d Hd]. exists (m, d). split; [done|].
    by apply elem_of_map_to_list.
Qed.

Lemma registry_ok_to_list devices :
  registry_ok devices ->
  Forall (fun md => registered md.1 md.2) (map_to_list devices).
Proof.
  intros Hok. apply Forall_forall. intros [m d] Hin. simpl.
  apply Hok. by apply elem_of_map_to_list.
Qed.

Lemma add_entities_spec devices tr :
  registry_ok devices ->
  exists news,
    add_entities devices tr
    = (inr (match news with [] => None | _ => Some news end), tr ∪ dom devices)
    /\ FritzBoxTracker._mac <$> news
       = filter (fun m => m ∉ tr) (map_to_list devices).*1
    /\ Forall (tracker_from devices) news.
Proof.
  intros Hok. unfold add_entities.
  destruct (add_entities_loop_ok (map_to_list devices)
              (NoDup_fst_map_to_list devices)
              (registry_ok_to_list devices Hok) tr [])
    as (news & -> & Hmacs & Hall).
  exists news. simpl. split; [|split; [done|]].
  - assert (Hdom : tr ∪ list_to_set (map_to_list devices).*1 = tr ∪ dom devices).
    { apply set_eq. intros m.
      by rewrite !elem_of_union, elem_of_list_to_set, elem_of_map_to_list_fst. }
    rewrite Hdom. by destruct news.
  - eapply Forall_impl; [exact Hall|].
    intros t (d & Hin & H). exists d. split; [|done].
    by apply elem_of_map_to_list.
Qed.

Lemma filter_untracked_set devices tr :
  list_to_set (filter (fun m => m ∉ tr) (map_to_list devices).*1)
  = dom devices ∖ tr.
Proof.
  apply set_eq. intros m.
  rewrite elem_of_list_to_set, list_elem_of_filter, elem_of_map_to_list_fst,
    elem_of_difference. tauto.
Qed.

(** X10.  On a registry as the scans keep it, [add_entities] does not
    raise; it adds the keys of the registry to [tracked] and makes one
    tracker for each key that was not in [tracked], with the name and
    the icon of the entity, not active, without attributes; it calls
    [async_add_entities] with them unless there is none. *)
Theorem add_entities_registered devices tr :
  registry_ok devices ->
  exists news,
    add_entities devices tr
    = (inr (match news with [] => None | _ => Some news end), tr ∪ dom devices)
    /\ NoDup (FritzBoxTracker._mac <$> news)
    /\ list_to_set (FritzBoxTracker._mac <$> news) = dom devices ∖ tr
    /\ Forall (tracker_from devices) news.
Proof.
  intros Hok.
  destruct (add_entities_spec devices tr Hok) as (news & Heq & Hmacs & Hall).
  exists news. split; [done|]. rewrite Hmacs. split; [|split; [|done]].
  - apply NoDup_filter, NoDup_fst_map_to_list.
  - apply filter_untracked_set.
Qed.

Lemma add_entities_registered_witness :
  let phone := FritzScannerEntity.mk "AA:BB" (Some "Phone") None None false
                 (Some "mdi:lan-disconnect") in
  exists news,
    add_entities {[ "AA:BB" := phone ]} ∅ = (inr (Some news), {["AA:BB"]})
    /\ FritzBoxTracker._mac <$> news = ["AA:BB"].
Proof.
  intros phone.
  destruct (add_entities_registered {[ "AA:BB" := phone ]} ∅)
    as (news & Heq & _ & _ & _).
  - intros m d Hd. apply lookup_singleton_Some in Hd as [<- <-].
    by split.
  - exists news. revert Heq. vm_compute.
    intros Heq. destruct news; [discriminate Heq|].
    injection Heq as Heq. subst. split; reflexivity.
Defined.

(** X11.  When every key of the registry is in [tracked] already,
    [add_entities] makes no tracker, leaves [tracked] as it is and does
    not call [async_add_entities], whatever the entities are. *)
Theorem add_entities_nothing_new devices tr :
  dom devices ⊆ tr -> add_entities devices tr = (inr None, tr).
Proof.
  intros Hsub. unfold add_entities.
  rewrite add_entities_loop_tracked; [done|].
  intros m Hm. by apply Hsub, elem_of_map_to_list_fst.
Qed.

Lemma add_entities_nothing_new_witness :
  add_entities {[ "AA:BB" := FritzScannerEntity.__init__ "AA:BB" None ]}
    {["AA:BB"]}
  = (inr None, {["AA:BB"]}).
Proof.
  apply add_entities_nothing_new. rewrite dom_singleton_L. done.
Defined.

(** The trackers handed over so far are one per tracked MAC. *)
Lemma update_router_step devices (s : Setup) :
  registry_ok devices ->
  NoDup (FritzBoxTracker._mac <$> added s) ->
  list_to_set (FritzBoxTracker._mac <$> added s) = tracked s ->
  (update_router devices s).1 = None
  /\ NoDup (FritzBoxTracker._mac <$> added (update_router devices s).2)
  /\ list_to_set (FritzBoxTracker._mac <$> added (update_router devices s).2)
     = tracked (update_router devices s).2
  /\ tracked (update_router devices s).2 = tracked s ∪ dom devices.
Proof.
  intros Hok Hnd Hset. unfold update_router.
  destruct (add_entities_spec devices (tracked s) Hok)
    as (news & -> & Hmacs & _).
  assert (Hnews : NoDup (FritzBoxTracker._mac <$> news)).
  { rewrite Hmacs. apply NoDup_filter, NoDup_fst_map_to_list. }
  assert (Hnew_set : list_to_set (FritzBoxTracker._mac <$> news)
                     = dom devices ∖ tracked s).
  { rewrite Hmacs. apply filter_untracked_set. }
  assert (Happ : NoDup (FritzBoxTracker._mac <$> (added s ++ news)%list)
                 /\ list_to_set (FritzBoxTracker._mac <$> (added s ++ news)%list)
                    = tracked s ∪ dom devices).
  { rewrite fmap_app. split.
    - apply NoDup_app. split; [done|]. split; [|done].
      intros m Hm Hm'.
      assert (H1 : m ∈ tracked s) by (rewrite <- Hset; by apply elem_of_list_to_set).
      assert (H2 : m ∈ dom devices ∖ tracked s)
        by (rewrite <- Hnew_set; by apply elem_of_list_to_set).
      set_solver.
    - rewrite list_to_set_app_L, Hset, Hnew_set.
      apply set_eq. intros m. rewrite !elem_of_union, elem_of_difference.
      destruct (decide (m ∈ tracked s)); tauto. }
  destruct news as [|t news]; simpl.
  - rewrite app_nil_r in Happ. destruct Happ as [_ Happ].
    split; [done|]. split; [done|]. by split.
  - destruct Happ as [Happ1 Happ2]. split; [done|]. split; [done|]. by split.
Qed.

Lemma update_router_runs_spec later :
  Forall registry_ok later ->
  forall s : Setup,
  NoDup (FritzBoxTracker._mac <$> added s) ->
  list_to_set (FritzBoxTracker._mac <$> added s) = tracked s ->
  NoDup (FritzBoxTracker._mac <$> added (update_router_runs later s))
  /\ list_to_set (FritzBoxTracker._mac <$> added (update_router_runs later s))
     = tracked (update_router_runs later s)
  /\ tracked (update_router_runs later s) = tracked s ∪ ⋃ (dom <$> later).
Proof.
  induction 1 as [|devices later Hok Hlater IH]; intros s Hnd Hset.
  - simpl. split; [done|]. split; [done|]. set_solver.
  - destruct (update_router_step devices s Hok Hnd Hset)
      as (_ & Hnd' & Hset' & Htr).
    destruct (IH _ Hnd' Hset') as (H1 & H2 & H3).
    change (update_router_runs (devices :: later) s)
      with (update_router_runs later (update_router devices s).2).
    split; [done|]. split; [done|].
    rewrite H3, Htr, fmap_cons. simpl. set_solver.
Qed.

Lemma update_router_outcomes_none later :
  Forall registry_ok later ->
  forall s : Setup,
  NoDup (FritzBoxTracker._mac <$> added s) ->
  list_to_set (FritzBoxTracker._mac <$> added s) = tracked s ->
  Forall (fun outcome => outcome = None) (update_router_outcomes later s).
Proof.
  induction 1 as [|devices later Hok Hlater IH]; intros s Hnd Hset.
  - apply Forall_nil_2.
  - destruct (update_router_step devices s Hok Hnd Hset)
      as (Hnone & Hnd' & Hset' & _).
    cbn [update_router_outcomes]. apply Forall_cons_2; [done|].
    by apply IH.
Qed.

(** X12.  Through the set-up and any number of later runs of
    [update_router], each on a registry as the scans keep it, no run
    raises, neither the one of the set-up nor any later one, no MAC
    gets two trackers, and the MACs with a tracker are the set
    [tracked], which holds the keys of all the registries seen. *)
Theorem trackers_one_per_mac devices later :
  registry_ok devices ->
  Forall registry_ok later ->
  let s := update_router_runs later (async_setup_entry devices).2 in
  (async_setup_entry devices).1 = None
  /\ Forall (fun outcome => outcome = None)
       (update_router_outcomes later (async_setup_entry devices).2)
  /\ NoDup (FritzBoxTracker._mac <$> added s)
  /\ list_to_set (FritzBoxTracker._mac <$> added s) = tracked s
  /\ tracked s = dom devices ∪ ⋃ (dom <$> later).
Proof.
  intros Hok Hlater s. subst s. unfold async_setup_entry.
  destruct (update_router_step devices (mkSetup ∅ []) Hok)
    as (Hnone & Hnd & Hset & Htr); [apply NoDup_nil_2 | done |].
  destruct (update_router_runs_spec later Hlater _ Hnd Hset) as (H1 & H2 & H3).
  split; [done|].
  split; [by apply update_router_outcomes_none|].
  split; [done|]. split; [done|].
  rewrite H3, Htr. simpl. set_solver.
Qed.

Lemma trackers_one_per_mac_witness :
  let phone := FritzScannerEntity.mk "AA:BB" (Some "Phone") None None false
                 (Some "mdi:lan-disconnect") in
  let tablet := FritzScannerEntity.mk "CC:DD" (Some "CC_DD")
                  (Some "10.0.0.6") (Some 3) true (Some "mdi:lan-connect") in
  let first : gmap string FritzScannerEntity.t := {[ "AA:BB" := phone ]} in
  let second : gmap string FritzScannerEntity.t :=
    <[ "CC:DD" := tablet ]> {[ "AA:BB" := phone ]} in
  let s := update_router_runs [second; second] (async_setup_entry first).2 in
  Forall (fun outcome => outcome = None)
    (update_router_outcomes [second; second] (async_setup_entry first).2)
  /\ NoDup (FritzBoxTracker._mac <$> added s)
  /\ tracked s = dom first ∪ ⋃ (dom <$> [second; second]).
Proof.
  intros phone tablet first second s.
  assert (Hphone : registered "AA:BB" phone) by by split.
  assert (Htablet : registered "CC:DD" tablet) by by split.
  assert (Hfirst : registry_ok first).
  { intros m d Hd. by apply lookup_singleton_Some in Hd as [<- <-]. }
  assert (Hsecond : registry_ok second).
  { intros m d Hd. apply lookup_insert_Some in Hd as [[<- <-]|[_ Hd]]; [done|].
    by apply lookup_singleton_Some in Hd as [<- <-]. }
  destruct (trackers_one_per_mac first [second; second] Hfirst
    (Forall_cons_2 _ _ _ Hsecond (Forall_cons_2 _ _ _ Hsecond (Forall_nil_2 _))))
    as (_ & Hnone & Hnd & _ & Htr).
  exact (conj Hnone (conj Hnd Htr)).
Defined.

(** X13.  A tracker whose MAC is in the registry can be refreshed
    after any later scans, returning or raising: [async_update_state]
    finds the entity and does not raise [KeyError]; it takes over the
    connectivity of the entity and leaves MAC, name and icon of the
    tracker as they were when it was made. *)
Theorem async_update_state_after_scans (isoformat : Z -> string)
    (w : World) (t : FritzBoxTracker.t) (d : FritzScannerEntity.t)
    (ticks : list (list known_host)) :
  _devices (self w) !! FritzBoxTracker._mac t = Some d ->
  exists t' d',
    _devices (self (scans w ticks)) !! FritzBoxTracker._mac t = Some d'
    /\ FritzBoxTracker.async_update_state isoformat
         (_devices (self (scans w ticks))) t = inr t'
    /\ FritzBoxTracker._active t' = _connected d'
    /\ FritzBoxTracker._mac t' = FritzBoxTracker._mac t
    /\ FritzBoxTracker._name t' = FritzBoxTracker._name t
    /\ FritzBoxTracker._icon t' = FritzBoxTracker._icon t.
Proof.
  intros Hd.
  destruct (scans_keep ticks w (FritzBoxTracker._mac t) d Hd) as [os Hos].
  unfold FritzBoxTracker.async_update_state. rewrite Hos.
  eexists _, (apply_all d os). split; [done|]. split; [done|]. by simpl.
Qed.

Lemma async_update_state_after_scans_witness :
  let phone := FritzScannerEntity.mk "AA:BB" (Some "Phone") None None false
                 (Some "mdi:lan-disconnect") in
  let w := mkWorld (FritzBoxTools.mk true {[ "AA:BB" := phone ]}) []
             (fun k => Z.of_nat k) 0 in
  let t := tracker_of phone "mdi:lan-disconnect" in
  exists t',
    FritzBoxTracker.async_update_state (fun _ => "")
      (_devices (self (scans w
         [[mkHost (Some (Some "AA:BB")) (Some None) (Some (Some "10.0.0.5"))
             (Some true)]]))) t = inr t'
    /\ FritzBoxTracker._icon t' = "mdi:lan-disconnect".
Proof.
  intros phone w t.
  destruct (async_update_state_after_scans (fun _ => "") w t phone
    [[mkHost (Some (Some "AA:BB")) (Some None) (Some (Some "10.0.0.5"))
        (Some true)]] eq_refl) as (t' & d' & _ & Hup & _ & _ & _ & Hicon).
  exists t'. exact (conj Hup Hicon).
Defined.

(** X14.  The attributes a refresh gives a tracker, for a registry as
    the scans keep it: ["mac"] is the MAC of the tracker, ["ip_address"]
    the address of the entity, which is [None] when the tracker is not
    active, and ["last_time_reachable"] is there exactly when the entity
    has been seen online, with the formatted time of its last
    activity. *)
Theorem async_update_state_attrs (isoformat : Z -> string)
    (devices : gmap string FritzScannerEntity.t) (t : FritzBoxTracker.t)
    (d : FritzScannerEntity.t) :
  registry_ok devices ->
  devices !! FritzBoxTracker._mac t = Some d ->
  exists t',
    FritzBoxTracker.async_update_state isoformat devices t = inr t'
    /\ FritzBoxTracker._attrs t' !! "mac" = Some (Some (FritzBoxTracker._mac t))
    /\ FritzBoxTracker._attrs t' !! "ip_address" = Some (_ip_address d)
    /\ (FritzBoxTracker._active t' = false ->
        FritzBoxTracker._attrs t' !! "ip_address" = Some None)
    /\ FritzBoxTracker._attrs t' !! "last_time_reachable"
       = (fun time => Some (isoformat time)) <$> _last_activity d.
Proof.
  intros Hok Hd. destruct (Hok _ _ Hd) as [Hmac _ _ _ Hip].
  unfold FritzBoxTracker.async_update_state. rewrite Hd.
  eexists. split; [done|]. simpl.
  assert (Hlook : forall (a : gmap string (option string)) k v k',
            <[k := v]> a !! k' = if decide (k = k') then Some v else a !! k').
  { intros a k v k'. apply lookup_insert. }
  destruct (_last_activity d) as [time|]; simpl;
    rewrite !Hlook, ?lookup_empty; simpl; rewrite Hmac;
    (split; [done|]); (split; [done|]); (split; [|done]);
    intros Hc; by rewrite Hip.
Qed.

Lemma async_update_state_attrs_witness :
  let phone := FritzScannerEntity.mk "AA:BB" (Some "Phone") None (Some 5) false
                 (Some "mdi:lan-disconnect") in
  exists t',
    FritzBoxTracker.async_update_state (fun _ => "2021-01-01T00:00:05+00:00")
      {[ "AA:BB" := phone ]} (tracker_of phone "mdi:lan-disconnect") = inr t'
    /\ FritzBoxTracker._attrs t' !! "ip_address" = Some None.
Proof.
  intros phone.
  destruct (async_update_state_attrs (fun _ => "2021-01-01T00:00:05+00:00")
    {[ "AA:BB" := phone ]} (tracker_of phone "mdi:lan-disconnect") phone)
    as (t' & Hup & _ & Hip & _).
  - intros m d Hd. apply lookup_singleton_Some in Hd as [<- <-]. by split.
  - reflexivity.
  - exists t'. exact (conj Hup Hip).
Defined.

End Tracker.

(** ** The model name of the router *)

Section Model.

Implicit Types (old new s : string).

Lemma starts_with_app old s : starts_with old (old +:+ s) = true.
Proof.
  induction old as [|a old IH]; [done|].
  simpl. by rewrite Ascii.eqb_refl, IH.
Qed.

Lemma starts_with_true old s :
  starts_with old s = true -> exists suf, s = old +:+ suf.
Proof.
  revert s. induction old as [|a old IH]; intros s H.
  - by exists s.
  - destruct s as [|b s]; [done|]. simpl in H.
    apply andb_true_iff in H as [Hab H].
    apply Ascii.eqb_eq in Hab as ->.
    destruct (IH s H) as [suf ->]. by exists suf.
Qed.

Lemma replace_from_skip old new t s :
  replace_from old new (String.length t) (t +:+ s) = replace_from old new 0 s.
Proof. induction t as [|c t IH]; [done|]. simpl. apply IH. Qed.

Lemma str_replace_prefix old new s :
  old <> "" -> str_replace old new (old +:+ s) = new +:+ str_replace old new s.
Proof.
  intros Hold. unfold str_replace.
  destruct old as [|a old]; [done|].
  change (String a old +:+ s) with (String a (old +:+ s)).
  cbn [replace_from].
  change (String a (old +:+ s)) with (String a old +:+ s).
  rewrite starts_with_app. f_equal.
  change (String.length (String a old) - 1)%nat with (String.length old - 0)%nat.
  rewrite Nat.sub_0_r. apply replace_from_skip.
Qed.

Lemma str_replace_absent old new s :
  ~ occurs old s -> str_replace old new s = s.
Proof.
  unfold str_replace. induction s as [|c s IH]; intros Hno; [done|].
  cbn [replace_from].
  destruct (starts_with old (String c s)) eqn:Hst.
  - destruct (starts_with_true _ _ Hst) as [suf Hsuf].
    exfalso. apply Hno. exists "", suf. by rewrite Hsuf.
  - f_equal. apply IH. intros (pre & suf & ->).
    apply Hno. by exists (String c pre), suf.
Qed.

Lemma occurs_occursb old s : occurs old s -> occursb old s = true.
Proof.
  intros (pre & suf & ->). induction pre as [|c pre IH].
  - change ("" +:+ old +:+ suf) with (old +:+ suf).
    destruct (old +:+ suf) eqn:E; simpl; rewrite <- E;
      by rewrite starts_with_app.
  - change (String c pre +:+ old +:+ suf)
      with (String c (pre +:+ old +:+ suf)).
    cbn [occursb]. rewrite IH. apply orb_true_r.
Qed.

(** X15.  For a router whose model name is "FRITZ!Box " followed by a
    rest in which that marker does not occur again, [fritzbox_model] is
    the rest. *)
Theorem fritzbox_model_strips (unique_id : string)
    (info : gmap string string) s :
  info !! "NewModelName" = Some ("FRITZ!Box " +:+ s) ->
  ~ occurs "FRITZ!Box " s ->
  fritzbox_model (_fetch_device_info unique_id info) = inr s.
Proof.
  intros Hinfo Hno. unfold fritzbox_model, _fetch_device_info. simpl.
  rewrite Hinfo. f_equal.
  rewrite str_replace_prefix by done. by rewrite str_replace_absent.
Qed.

Lemma fritzbox_model_strips_witness :
  fritzbox_model
    (_fetch_device_info "123456" {[ "NewModelName" := "FRITZ!Box 7590" ]})
  = inr "7590".
Proof.
  apply (fritzbox_model_strips "123456" _ "7590"); [reflexivity|].
  intros H. apply occurs_occursb in H. discriminate H.
Defined.

(** X16.  A model name in which "FRITZ!Box " does not occur is given
    back as it is; when the router gives no model name, [fritzbox_model]
    raises [AttributeError], the model being [None]. *)
Theorem fritzbox_model_other (unique_id : string)
    (info : gmap string string) :
  (info !! "NewModelName" = None ->
   fritzbox_model (_fetch_device_info unique_id info)
   = inl (AttributeError "replace"))
  /\ (forall model,
        info !! "NewModelName" = Some model ->
        ~ occurs "FRITZ!Box " model ->
        fritzbox_model (_fetch_device_info unique_id info) = inr model).
Proof.
  unfold fritzbox_model, _fetch_device_info. simpl. split.
  - by intros ->.
  - intros model -> Hno. f_equal. by apply str_replace_absent.
Qed.

Lemma fritzbox_model_other_witness :
  fritzbox_model
    (_fetch_device_info "123456" {[ "NewModelName" := "FRITZ!Repeater 1200" ]})
  = inr "FRITZ!Repeater 1200".
Proof.
  apply (proj2 (fritzbox_model_other "123456"
                  {[ "NewModelName" := "FRITZ!Repeater 1200" ]}));
    [reflexivity|].
  intros H. apply occurs_occursb in H. discriminate H.
Defined.

End Model.

(** ** The validation of the configured hosts *)

Section UniqueHosts.

Context {Entry : Type} (conf_host : Entry -> option string)
  (gethostbyname : string -> option string).

Lemma resolve_all_inr value addresses :
  Hosts.resolve_all conf_host gethostbyname value = inr addresses
  <-> Forall2 (Hosts.resolves conf_host gethostbyname) value addresses.
Proof.
  revert addresses. induction value as [|entry value IH]; intros addresses.
  - simpl. split.
    + intros [= <-]. constructor.
    + intros H. by apply Forall2_nil_inv_l in H as ->.
  - simpl. split.
    + destruct (conf_host entry) as [host|] eqn:Hh; [|done].
      destruct (gethostbyname host) as [address|] eqn:Ha; [|done].
      destruct (Hosts.resolve_all conf_host gethostbyname value)
        as [e|rest] eqn:Hr; [done|].
      intros [= <-]. constructor; [by exists host | by apply IH].
    + intros H. apply Forall2_cons_inv_l in H
        as (address & rest & (host & Hh & Ha) & Hrest & ->).
      apply IH in Hrest. by rewrite Hh, Ha, Hrest.
Qed.

(** X17.  [ensure_unique_hosts] gives back a value exactly when every
    entry has a host that resolves and no two entries resolve to the
    same address, and the value is then its argument, unchanged. *)
Theorem ensure_unique_hosts_accepts value value' :
  Hosts.ensure_unique_hosts conf_host gethostbyname value = inr value'
  <-> value' = value
      /\ exists addresses,
           Forall2 (Hosts.resolves conf_host gethostbyname) value addresses
           /\ NoDup addresses.
Proof.
  unfold Hosts.ensure_unique_hosts, Hosts.unique. split.
  - destruct (Hosts.resolve_all conf_host gethostbyname value)
      as [e|addresses] eqn:Hr; [done|].
    destruct (decide (NoDup addresses)) as [Hnd|Hnd]; [|done].
    intros [= <-]. split; [done|]. exists addresses.
    split; [by apply resolve_all_inr | done].
  - intros (-> & addresses & Hres & Hnd).
    apply resolve_all_inr in Hres. rewrite Hres.
    by rewrite decide_True.
Qed.

End UniqueHosts.

(** ** The scan and the trackers together *)

Section ScanAndTrackers.

Lemma host_macs_known w hosts :
  ~ discovers w hosts -> host_macs hosts ⊆ dom (_devices (self w)).
Proof.
  intros Hno m Hm. apply elem_of_host_macs in Hm as (h & Hin & Hm).
  apply elem_of_dom.
  destruct (_devices (self w) !! m) as [d|] eqn:Hd; [by exists d|].
  exfalso. apply Hno. by exists h, m.
Qed.

(** X18.  Take a working tools object, a registry as the scans keep
    it, a host list the scan can read, and [tracked] equal to the keys
    of the registry before the scan.  Then the scan returns, and the
    new-device signal is sent exactly when [add_entities] has trackers
    to make afterwards: after a scan that sent it, [add_entities] hands
    over a non-empty list and [tracked] becomes the keys of the
    registry; after a scan that sent the update signal only, it hands
    over nothing and leaves [tracked] as it is. *)
Theorem new_device_signal_matches_add_entities w hosts :
  success (self w) = true ->
  Forall readable hosts ->
  registry_ok (_devices (self w)) ->
  let tr := dom (_devices (self w)) in
  exists w',
    scan_devices hosts w = (Py.Return tt, w')
    /\ ((dispatched w'
         = (dispatched w ++ [signal_device_update; signal_device_new])%list
         /\ exists t news,
              add_entities (_devices (self w')) tr
              = (inr (Some (t :: news)), dom (_devices (self w'))))
        \/ (dispatched w' = (dispatched w ++ [signal_device_update])%list
            /\ add_entities (_devices (self w')) tr = (inr None, tr))).
Proof.
  intros Hs Hr Hok tr.
  pose proof (after_scan_devices w hosts) as Hdev.
  pose proof (after_scan_registry_ok w hosts Hok) as Hok'.
  pose proof (scan_loop_dom_readable hosts Hr false w) as Hdom.
  unfold after_scan in Hdev, Hok'. rewrite Hs in Hdev.
  rewrite scan_devices_working in Hdev, Hok' |- * by done.
  destruct (scan_loop_readable hosts Hr false w) as (nd & w1 & Heq & Hd & Hnd).
  rewrite Heq in Hdev, Hok', Hdom |- *. simpl in Hdev, Hok', Hdom.
  eexists. split; [done|]. simpl. rewrite Hd. destruct nd.
  - left. split; [done|].
    destruct Hnd as [Hnd _].
    destruct (Hnd eq_refl) as [?|(h & m & Hin & Hm & Hnone)]; [done|].
    destruct (add_entities_spec (_devices (self w1)) tr Hok')
      as (news & Hadd & Hmacs & _).
    assert (Hm' : m ∈ FritzBoxTracker._mac <$> news).
    { rewrite Hmacs. apply list_elem_of_filter. split.
      - subst tr. by apply not_elem_of_dom.
      - apply elem_of_map_to_list_fst. rewrite Hdom.
        apply elem_of_union_r, elem_of_host_macs. by exists h. }
    destruct news as [|t news]; [by apply elem_of_nil in Hm'|].
    exists t, news. rewrite Hadd. f_equal.
    subst tr. rewrite Hdom. set_solver.
  - right. split; [done|].
    assert (Hno : ~ discovers w hosts).
    { intros H. destruct Hnd as [_ Hnd]. by specialize (Hnd (or_intror H)). }
    apply host_macs_known in Hno.
    unfold add_entities. rewrite add_entities_loop_tracked; [done|].
    intros m Hm. apply elem_of_map_to_list_fst in Hm.
    rewrite Hdom in Hm. subst tr. set_solver.
Qed.

Lemma new_device_signal_matches_add_entities_witness :
  let phone := FritzScannerEntity.mk "AA:BB" (Some "Phone") None None false
                 (Some "mdi:lan-disconnect") in
  let w := mkWorld (FritzBoxTools.mk true {[ "AA:BB" := phone ]}) []
             (fun k => Z.of_nat k) 0 in
  let hosts :=
    [mkHost (Some (Some "AA:BB")) (Some (Some "Phone"))
       (Some (Some "192.168.1.5")) (Some true);
     mkHost (Some (Some "CC:DD")) (Some None) (Some None) (Some false)] in
  exists w' t news,
    scan_devices hosts w = (Py.Return tt, w')
    /\ dispatched w' = [signal_device_update; signal_device_new]
    /\ add_entities (_devices (self w')) (dom (_devices (self w)))
       = (inr (Some (t :: news)), dom (_devices (self w'))).
Proof.
  intros phone w hosts.
  destruct (new_device_signal_matches_add_entities w hosts eq_refl)
    as (w' & Hscan & [[Hsent (t & news & Hadd)]|[Hsent _]]).
  - apply Forall_cons_2; [|apply Forall_cons_2; [|apply Forall_nil_2]];
      intros _; simpl; repeat split; by eexists.
  - intros m d Hd. simpl in Hd.
    apply lookup_singleton_Some in Hd as [<- <-]. by split.
  - exists w', t, news. exact (conj Hscan (conj Hsent Hadd)).
  - exfalso. vm_compute in Hscan. injection Hscan as <-.
    vm_compute in Hsent. discriminate Hsent.
Defined.

End ScanAndTrackers.
